(** * Gerber X2 attribute generation and plot file naming (pcbnew/pcbplot.cpp)

    A shallow embedding of the string-building functions of
    [pcbnew/pcbplot.cpp] and of the open/close life cycle of
    [PLOT_CONTROLLER], followed by the properties established about them. *)

From Stdlib Require Import ZArith List Bool Lia Ascii String DecimalString.
Import ListNotations.
Local Open Scope Z_scope.

(** ** Machine integers *)

Module Int.

(** The C++ [int] of the targets KiCad builds for: 32 bits, two's
    complement.  Values are carried by [Z]; [wrap] is the reduction an
    arithmetic result or a narrowing conversion goes through. *)
Definition INT_MIN : Z := - 2 ^ 31.
Definition INT_MAX : Z := 2 ^ 31 - 1.

Definition wrap (z : Z) : Z := (z + 2 ^ 31) mod 2 ^ 32 - 2 ^ 31.

(** [unsigned z] is the value [printf] reads when an [int] is handed to a
    [%x] conversion. *)
Definition unsigned (z : Z) : Z := z mod 2 ^ 32.

Definition add (a b : Z) : Z := wrap (a + b).

End Int.

(** ** wxString *)

(** A [wxString] is a sequence of [wxUniChar] code points; [int( s[i] )]
    in the source reads the code point as an integer.  The strings are texts
    without the NUL character, so that a [%s] conversion prints all of the
    string it is given. *)
Definition wxUniChar := Z.
Definition wxString := list wxUniChar.

Definition ch (a : ascii) : wxUniChar := Z.of_N (N_of_ascii a).

(** [wxT( "..." )] and plain narrow literals: the literal's characters. *)
Definition wxT (s : string) : wxString := map ch (list_ascii_of_string s).

Definition Len (s : wxString) : nat := List.length s.
Definition IsEmpty (s : wxString) : bool :=
  match s with [] => true | _ :: _ => false end.

(** [s.Append( c, n )] *)
Definition Append (s : wxString) (c : wxUniChar) (n : nat) : wxString :=
  s ++ repeat c n.

(** [s.Prepend( p )] *)
Definition Prepend (s p : wxString) : wxString := p ++ s.

(** [s.Replace( old, new )] where [old] is a single character, which is the
    only way the file calls it: every occurrence is replaced. *)
Definition Replace (s : wxString) (old : wxUniChar) (new : wxString) : wxString :=
  flat_map (fun c => if c =? old then new else [c]) s.

(** [s.insert( pos, str, 1 )] for a one character [str] and [pos <= Len]. *)
Definition insert (s : wxString) (pos : nat) (c : wxUniChar) : wxString :=
  firstn pos s ++ c :: skipn pos s.

(** wxWidgets trims what [wxSafeIsspace] accepts: the 7-bit characters for
    which [isspace] holds in the C locale. *)
Definition wxSafeIsspace (c : wxUniChar) : bool :=
  (c =? 32) || ((9 <=? c) && (c <=? 13)).

Fixpoint TrimLeft (s : wxString) : wxString :=
  match s with
  | [] => []
  | c :: s' => if wxSafeIsspace c then TrimLeft s' else s
  end.

(** [s.Trim( bFromRight )] *)
Definition Trim (s : wxString) (bFromRight : bool) : wxString :=
  if bFromRight then rev (TrimLeft (rev s)) else TrimLeft s.

(** [s.ToAscii()]: characters outside 7-bit ASCII become an underscore. *)
Definition ToAscii (s : wxString) : wxString :=
  map (fun c => if (0 <=? c) && (c <=? 127) then c else ch "_") s.

(** ** printf conversions used by the file *)

(** [%d] of an [int]. *)
Definition format_d (v : Z) : wxString :=
  wxT (NilZero.string_of_int (Z.to_int v)).

Definition hex_digit (d : Z) : wxUniChar :=
  if d <? 10 then ch "0" + d else ch "a" + (d - 10).

(** The hexadecimal digits of [v], most significant first, without leading
    zeros; eight rounds cover an [unsigned int]. *)
Fixpoint hex_digits (rounds : nat) (v : Z) : wxString :=
  match rounds with
  | O => []
  | S r =>
      if v <? 16 then [hex_digit v]
      else hex_digits r (v / 16) ++ [hex_digit (v mod 16)]
  end.

(** [%x] and [%N.Nx] of an [int]: the argument is read as unsigned, and the
    precision [prec] is the minimum number of digits (the field width of
    the formats used here never exceeds the precision). *)
Definition format_x (prec : nat) (v : Z) : wxString :=
  let ds := hex_digits 8 (Int.unsigned v) in
  repeat (ch "0") (prec - List.length ds) ++ ds.

(** ** Layer identifiers *)

(** [LAYER_NUM] is a typedef of [int]. *)
Definition LAYER_NUM := Z.

(** The enumerators of [PCB_LAYER_ID] named in this file and the predicate
    [IsCopperLayer] are declared in a header that is not part of the
    sources at hand, so the functions below take them as parameters. *)
Class LayerIds : Type := {
  F_Cu : LAYER_NUM;       B_Cu : LAYER_NUM;
  B_Adhes : LAYER_NUM;    F_Adhes : LAYER_NUM;
  B_Paste : LAYER_NUM;    F_Paste : LAYER_NUM;
  B_SilkS : LAYER_NUM;    F_SilkS : LAYER_NUM;
  B_Mask : LAYER_NUM;     F_Mask : LAYER_NUM;
  Dwgs_User : LAYER_NUM;  Cmts_User : LAYER_NUM;
  Eco1_User : LAYER_NUM;  Eco2_User : LAYER_NUM;
  Edge_Cuts : LAYER_NUM;
  B_Fab : LAYER_NUM;      F_Fab : LAYER_NUM;
  IsCopperLayer : LAYER_NUM -> bool
}.

Fixpoint all_distinct (l : list Z) : bool :=
  match l with
  | [] => true
  | x :: l' => negb (existsb (Z.eqb x) l') && all_distinct l'
  end.

Section Layers.
Context {ids : LayerIds}.

(** The non-copper layers the file names. *)
Definition named_technical_layers : list LAYER_NUM :=
  [ F_Adhes; B_Adhes; F_SilkS; B_SilkS; F_Mask; B_Mask; F_Paste; B_Paste;
    Edge_Cuts; Dwgs_User; Cmts_User; Eco1_User; Eco2_User; B_Fab; F_Fab ].

(** What the functions rely on: the enumerators are pairwise different
    (they are case labels of one [switch]), the two outer copper layers
    are copper layers and the named technical layers are not. *)
Definition layer_ids_ok : bool :=
  all_distinct (B_Cu :: F_Cu :: named_technical_layers)
  && IsCopperLayer F_Cu && IsCopperLayer B_Cu
  && forallb (fun l => negb (IsCopperLayer l)) named_technical_layers.

Definition GetGerberProtelExtension (aLayer : LAYER_NUM) : wxString :=
  if IsCopperLayer aLayer then
    if aLayer =? F_Cu then wxT "gtl"
    else if aLayer =? B_Cu then wxT "gbl"
    else wxT "g" ++ format_d (Int.add aLayer 1)
  else
    if aLayer =? B_Adhes then wxT "gba"
    else if aLayer =? F_Adhes then wxT "gta"
    else if aLayer =? B_Paste then wxT "gbp"
    else if aLayer =? F_Paste then wxT "gtp"
    else if aLayer =? B_SilkS then wxT "gbo"
    else if aLayer =? F_SilkS then wxT "gto"
    else if aLayer =? B_Mask then wxT "gbs"
    else if aLayer =? F_Mask then wxT "gts"
    else if aLayer =? Edge_Cuts then wxT "gm1"
    else wxT "gbr".

(** The value part built by the [switch] of
    [GetGerberFileFunctionAttribute]; [aCopperLayerCount] is
    [aBoard->GetCopperLayerCount()]. *)
Definition FileFunction_attrib (aCopperLayerCount : Z) (aLayer : LAYER_NUM)
  : wxString :=
  if aLayer =? F_Adhes then wxT "Glue,Top"
  else if aLayer =? B_Adhes then wxT "Glue,Bot"
  else if aLayer =? F_SilkS then wxT "Legend,Top"
  else if aLayer =? B_SilkS then wxT "Legend,Bot"
  else if aLayer =? F_Mask then wxT "Soldermask,Top"
  else if aLayer =? B_Mask then wxT "Soldermask,Bot"
  else if aLayer =? F_Paste then wxT "Paste,Top"
  else if aLayer =? B_Paste then wxT "Paste,Bot"
  else if aLayer =? Edge_Cuts then wxT "Profile,NP"
  else if aLayer =? Dwgs_User then wxT "Drawing"
  else if aLayer =? Cmts_User then wxT "Other,Comment"
  else if aLayer =? Eco1_User then wxT "Other,ECO1"
  else if aLayer =? Eco2_User then wxT "Other,ECO2"
  else if aLayer =? B_Fab then wxT "Other,Fab,Bot"
  else if aLayer =? F_Fab then wxT "Other,Fab,Top"
  else if aLayer =? B_Cu then
    wxT "Copper,L" ++ format_d aCopperLayerCount ++ wxT ",Bot"
  else if aLayer =? F_Cu then wxT "Copper,L1,Top"
  else if IsCopperLayer aLayer then
    wxT "Copper,L" ++ format_d (Int.add aLayer 1) ++ wxT ",Inr"
  else wxT "Other,User".

Definition GetGerberFileFunctionAttribute
  (aCopperLayerCount : Z) (aLayer : LAYER_NUM) : wxString :=
  let attrib := FileFunction_attrib aCopperLayerCount aLayer in
  wxT "%TF.FileFunction," ++ attrib ++ wxT "*%".

Definition FilePolarity_polarity (aLayer : LAYER_NUM) : Z :=
  if (aLayer =? F_Adhes) || (aLayer =? B_Adhes)
     || (aLayer =? F_SilkS) || (aLayer =? B_SilkS)
     || (aLayer =? F_Paste) || (aLayer =? B_Paste) then 1
  else if (aLayer =? F_Mask) || (aLayer =? B_Mask) then -1
  else if IsCopperLayer aLayer then 1
  else 0.

Definition GetGerberFilePolarityAttribute (aLayer : LAYER_NUM) : wxString :=
  let polarity := FilePolarity_polarity aLayer in
  let filePolarity : wxString := [] in
  let filePolarity :=
    if polarity =? 1 then wxT "%TF.FilePolarity,Positive*%" else filePolarity in
  let filePolarity :=
    if polarity =? -1 then wxT "%TF.FilePolarity,Negative*%" else filePolarity in
  filePolarity.

(** The layer families the polarity is stated on. *)
Definition is_adhesive (l : LAYER_NUM) : bool := (l =? F_Adhes) || (l =? B_Adhes).
Definition is_silkscreen (l : LAYER_NUM) : bool := (l =? F_SilkS) || (l =? B_SilkS).
Definition is_paste (l : LAYER_NUM) : bool := (l =? F_Paste) || (l =? B_Paste).
Definition is_mask (l : LAYER_NUM) : bool := (l =? F_Mask) || (l =? B_Mask).

(** A layer none of the [case] labels of [GetGerberFileFunctionAttribute]
    names and that is not a copper layer. *)
Definition unrecognized (l : LAYER_NUM) : Prop :=
  ~ In l (B_Cu :: F_Cu :: named_technical_layers) /\ IsCopperLayer l = false.

Definition Positive : wxString := wxT "%TF.FilePolarity,Positive*%".
Definition Negative : wxString := wxT "%TF.FilePolarity,Negative*%".

Definition FileFunction_line (value : wxString) : wxString :=
  wxT "%TF.FileFunction," ++ value ++ wxT "*%".

End Layers.

(** The numbering of [PCB_LAYER_ID] in KiCad 5, used to run the functions
    on concrete layers: copper layers are 0 (front) to 31 (back). *)
Definition kicad_layer_ids : LayerIds := {|
  F_Cu := 0;        B_Cu := 31;
  B_Adhes := 32;    F_Adhes := 33;
  B_Paste := 34;    F_Paste := 35;
  B_SilkS := 36;    F_SilkS := 37;
  B_Mask := 38;     F_Mask := 39;
  Dwgs_User := 40;  Cmts_User := 41;
  Eco1_User := 42;  Eco2_User := 43;
  Edge_Cuts := 44;
  B_Fab := 48;      F_Fab := 49;
  IsCopperLayer := fun l => (0 <=? l) && (l <=? 31)
|}.

(** ** Project GUID *)

(** [int( s[i] )]; every index the file reads lies inside the string. *)
Definition char_at (s : wxString) (i : nat) : Z := nth i s 0.

(** The loops [for( ii = 0; ii < n; ii++ )] of [makeProjectGUIDfromString]:
    each round prints the low byte of the next character as two hex digits
    and advances [chr_idx]. *)
Fixpoint emit_bytes (n : nat) (bname : wxString) (st : wxString * nat)
  : wxString * nat :=
  match n with
  | O => st
  | S n' =>
      let '(guid, chr_idx) := st in
      let cc := Z.land (char_at bname chr_idx) 0xFF in
      emit_bytes n' bname (guid ++ format_x 2 cc, S chr_idx)
  end.

(** [16 - bname.Len()] is computed on [size_t] and narrowed to [int]. *)
Definition pad_count (bname : wxString) : Z :=
  Int.wrap ((16 - Z.of_nat (Len bname)) mod 2 ^ 64).

Definition padded_name (aText : wxString) : wxString :=
  let bname := aText in
  let cnt := pad_count bname in
  if 0 <? cnt then Append bname (ch "X") (Z.to_nat cnt) else bname.

Definition makeProjectGUIDfromString (aText : wxString) : wxString :=
  let guid : wxString := [] in
  let bname := padded_name aText in
  let chr_idx := 0%nat in
  (* the 8 first hex digits *)
  let '(guid, chr_idx) := emit_bytes 4 bname (guid, chr_idx) in
  (* the 4 next hex digits *)
  let guid := guid ++ wxT "-" in
  let '(guid, chr_idx) := emit_bytes 2 bname (guid, chr_idx) in
  (* UID version and 3 digits *)
  let guid := guid ++ wxT "-1" in
  let cc := Z.land (Z.shiftl (char_at bname chr_idx) 4) 0xFF0 in
  let chr_idx := S chr_idx in
  let cc := cc + Z.land (Z.shiftr (char_at bname chr_idx) 4) 0x0F in
  let guid := guid ++ format_x 3 cc in
  (* UID tag and 3 digits *)
  let guid := guid ++ wxT "-9" in
  let cc := Z.shiftl (Z.land (char_at bname chr_idx) 0x0F) 8 in
  let chr_idx := S chr_idx in
  let cc := cc + Z.land (char_at bname chr_idx) 0xFF in
  let chr_idx := S chr_idx in
  let guid := guid ++ format_x 3 cc in
  (* the 12 last hex digits *)
  let guid := guid ++ wxT "-" in
  let '(guid, chr_idx) := emit_bytes 6 bname (guid, chr_idx) in
  guid.

(** The shape the GUID is checked against,
    [^[0-9a-f]{8}-[0-9a-f]{4}-1[0-9a-f]{3}-9[0-9a-f]{3}-[0-9a-f]{12}$],
    as a sequence of character classes matched against the whole string. *)
Inductive char_class := Hex | Lit (c : wxUniChar).

Definition is_lower_hex (c : wxUniChar) : bool :=
  ((ch "0" <=? c) && (c <=? ch "9")) || ((ch "a" <=? c) && (c <=? ch "f")).

Fixpoint matches (p : list char_class) (s : wxString) : bool :=
  match p, s with
  | [], [] => true
  | Hex :: p', c :: s' => is_lower_hex c && matches p' s'
  | Lit l :: p', c :: s' => (c =? l) && matches p' s'
  | _, _ => false
  end.

Definition guid_pattern : list char_class :=
  repeat Hex 8 ++ [Lit (ch "-")] ++ repeat Hex 4 ++ [Lit (ch "-"); Lit (ch "1")]
  ++ repeat Hex 3 ++ [Lit (ch "-"); Lit (ch "9")] ++ repeat Hex 3
  ++ [Lit (ch "-")] ++ repeat Hex 12.

(** The specification's reading of the working buffer: a name shorter than 16
    characters is filled up to 16 with the filler. *)
Definition right_pad16 (name : wxString) : wxString :=
  name ++ repeat (ch "X") (16 - List.length name).

(** ** X1 compatibility *)

(** [aText] is passed by reference and changed in place; the result is both
    the new content of the caller's variable and the line returned. *)
Definition makeStringCompatX1 (aText : wxString) (aUseX1CompatibilityMode : bool)
  : wxString :=
  if aUseX1CompatibilityMode then
    let aText := Replace aText (ch "%") [] in
    let aText := Prepend aText (wxT "G04 #@! ") in
    aText
  else aText.

(** ** wxFileName *)

(** A file name in the Unix path format, where there is no volume: whether
    the path is relative, its directories, the base name and the extension. *)
Record wxFileName := {
  m_relative : bool;
  m_dirs : list wxString;
  m_name : wxString;
  m_ext : wxString;
  m_hasExt : bool
}.

Definition is_path_separator (c : wxUniChar) : bool := c =? ch "/".

(** The tokens of a path between separators, [token] being the one in
    progress; an empty token is dropped, as [SetPath] does. *)
Fixpoint path_tokens (path token : wxString) : list wxString :=
  match path with
  | [] => if IsEmpty token then [] else [token]
  | c :: path' =>
      if is_path_separator c
      then (if IsEmpty token then [] else [token]) ++ path_tokens path' []
      else path_tokens path' (token ++ [c])
  end.

(** The directories a path text names. *)
Definition path_dirs (path : wxString) : list wxString := path_tokens path [].

(** Whether a path text is absolute: it begins with the separator. *)
Definition path_is_absolute (path : wxString) : bool :=
  match path with
  | c :: _ => is_path_separator c
  | [] => false
  end.

(** Directories as [SetPath] stores them: none is empty, none holds a
    separator. *)
Definition well_formed_dirs (dirs : list wxString) : bool :=
  forallb (fun d => negb (IsEmpty d)
                    && forallb (fun c => negb (is_path_separator c)) d) dirs.

(** [fn.SetPath( path )]: the directories are cleared; an empty path leaves
    a relative file name without directories, any other path is absolute
    when it begins with the separator and is broken up into its
    directories. *)
Definition SetPath (fn : wxFileName) (path : wxString) : wxFileName :=
  {| m_relative := if IsEmpty path then true else negb (path_is_absolute path);
     m_dirs := if IsEmpty path then [] else path_dirs path;
     m_name := m_name fn; m_ext := m_ext fn; m_hasExt := m_hasExt fn |}.
Definition SetExt (fn : wxFileName) (ext : wxString) : wxFileName :=
  {| m_relative := m_relative fn; m_dirs := m_dirs fn; m_name := m_name fn;
     m_ext := ext; m_hasExt := negb (IsEmpty ext) |}.
Definition SetName (fn : wxFileName) (name : wxString) : wxFileName :=
  {| m_relative := m_relative fn; m_dirs := m_dirs fn; m_name := name;
     m_ext := m_ext fn; m_hasExt := m_hasExt fn |}.
Definition GetName (fn : wxFileName) : wxString := m_name fn.

(** The loop of [wxFileName::GetPath]: every directory, a separator after
    each but the last, and after the last one too when
    [wxPATH_GET_SEPARATOR] is asked for. *)
Fixpoint join_dirs (separator_after_last : bool) (dirs : list wxString) : wxString :=
  match dirs with
  | [] => []
  | d :: rest =>
      d ++ (match rest with
            | [] => if separator_after_last then wxT "/" else []
            | _ :: _ => wxT "/"
            end) ++ join_dirs separator_after_last rest
  end.

Definition GetPath_with (separator_after_last : bool) (fn : wxFileName) : wxString :=
  (if m_relative fn then [] else wxT "/")
  ++ join_dirs separator_after_last (m_dirs fn).

(** [fn.GetPath()], with its default flags: no separator at the end. *)
Definition GetPath (fn : wxFileName) : wxString := GetPath_with false fn.
Definition GetFullName (fn : wxFileName) : wxString :=
  if m_hasExt fn then m_name fn ++ wxT "." ++ m_ext fn else m_name fn.
(** [fn.GetFullPath()]: the path with its separator, then the full name. *)
Definition GetFullPath (fn : wxFileName) : wxString :=
  GetPath_with true fn ++ GetFullName fn.

(** [wxFileName::GetForbiddenChars( wxPATH_DOS )]: the two wildcards every
    format forbids and the DOS additions, backslash, slash, colon, double
    quote, angle brackets and bar. *)
Definition GetForbiddenChars_DOS : wxString :=
  wxT "*?\/:" ++ [34] ++ wxT "<>|".

Definition BuildPlotFileName (aFilename : wxFileName)
  (aOutputDir aSuffix aExtension : wxString) : wxFileName :=
  let aFilename := SetPath aFilename aOutputDir in
  let aFilename := SetExt aFilename aExtension in
  let suffix := aSuffix in
  let suffix := Trim suffix true in
  let suffix := Trim suffix false in
  let badchars := GetForbiddenChars_DOS in
  let badchars := Append badchars (ch "%") 1 in
  let suffix := fold_left (fun s c => Replace s c (wxT "_")) badchars suffix in
  if negb (IsEmpty suffix) then
    SetName aFilename (GetName aFilename ++ wxT "-" ++ suffix)
  else aFilename.

(** The specification's reading of the sanitising step. *)
Definition is_forbidden (c : wxUniChar) : bool :=
  existsb (Z.eqb c) (GetForbiddenChars_DOS ++ [ch "%"]).

Definition sanitize (s : wxString) : wxString :=
  map (fun c => if is_forbidden c then ch "_" else c) s.

(** [t] is [s] without its leading and trailing white space. *)
Definition blank (s : wxString) : Prop :=
  Forall (fun c => wxSafeIsspace c = true) s.

Definition trimmed_of (t s : wxString) : Prop :=
  exists pre post,
    s = pre ++ t ++ post /\ blank pre /\ blank post
    /\ (t = [] \/ (wxSafeIsspace (hd 0 t) = false
                   /\ wxSafeIsspace (last t 0) = false)).

(** A base file name alone, as [BuildPlotFileName] expects to get it. *)
Definition base_name (name : wxString) : wxFileName :=
  {| m_relative := true; m_dirs := []; m_name := name; m_ext := [];
     m_hasExt := false |}.

(** ** Board, plot options and plotter *)

Inductive PlotFormat :=
| PLOT_FORMAT_HPGL | PLOT_FORMAT_GERBER | PLOT_FORMAT_POST
| PLOT_FORMAT_DXF | PLOT_FORMAT_PDF | PLOT_FORMAT_SVG.

Definition PlotFormat_eqb (a b : PlotFormat) : bool :=
  match a, b with
  | PLOT_FORMAT_HPGL, PLOT_FORMAT_HPGL | PLOT_FORMAT_GERBER, PLOT_FORMAT_GERBER
  | PLOT_FORMAT_POST, PLOT_FORMAT_POST | PLOT_FORMAT_DXF, PLOT_FORMAT_DXF
  | PLOT_FORMAT_PDF, PLOT_FORMAT_PDF | PLOT_FORMAT_SVG, PLOT_FORMAT_SVG => true
  | _, _ => false
  end.

(** The fields of [PCB_PLOT_PARAMS] the file reads or writes. *)
Record PCB_PLOT_PARAMS := {
  m_format : PlotFormat;
  m_outputDirectory : wxString;
  m_useGerberProtelExtensions : bool;
  m_useAuxOrigin : bool
}.

Definition SetFormat (o : PCB_PLOT_PARAMS) (f : PlotFormat) : PCB_PLOT_PARAMS :=
  {| m_format := f; m_outputDirectory := m_outputDirectory o;
     m_useGerberProtelExtensions := m_useGerberProtelExtensions o;
     m_useAuxOrigin := m_useAuxOrigin o |}.

Record wxPoint := { x : Z; y : Z }.

(** What the file reads from a [BOARD]. *)
Record BOARD := {
  GetFileName : wxString;
  GetCopperLayerCount : Z;
  GetRevision : wxString;          (* GetTitleBlock().GetRevision() *)
  GetAuxOrigin : wxPoint;
  GetPlotOptions : PCB_PLOT_PARAMS
}.

(** A plotter, as far as this file is concerned: the extra header lines it
    has been given, in order, and whatever else the backend holds. *)
Record PLOTTER := {
  m_headerExtraLines : list wxString;
  m_backend : Z
}.

Definition AddLineToHeader (p : PLOTTER) (aExtraString : wxString) : PLOTTER :=
  {| m_headerExtraLines := m_headerExtraLines p ++ [aExtraString];
     m_backend := m_backend p |}.

(** The current time, as the two renderings the header asks of it. *)
Record wxDateTime := {
  FormatISOCombined : wxString;
  Format_z : wxString                (* date.Format( "%z" ) *)
}.

(** ** Header assembly *)

(** The specification's reading of the time zone offset: a colon goes before the
    last two characters of an offset longer than three characters. *)
Definition colon_before_last_two (offset : wxString) : wxString :=
  if (3 <? List.length offset)%nat
  then insert offset (List.length offset - 2) (ch ":")
  else offset.

Section Header.
Context {ids : LayerIds}.
(** [GetBuildVersion()], [wxDateTime::GetTimeNow()] and the parsing
    constructor [wxFileName( fullpath )] come from outside the file. *)
Variable GetBuildVersion : wxString.
Variable GetTimeNow : wxDateTime.
Variable wxFileName_of : wxString -> wxFileName.

Definition AddGerberX2Header (aPlotter : PLOTTER) (aBoard : BOARD)
  (aUseX1CompatibilityMode : bool) : PLOTTER :=
  let text := wxT "%TF.GenerationSoftware,KiCad,Pcbnew," ++ GetBuildVersion
              ++ wxT "*%" in
  let text := makeStringCompatX1 text aUseX1CompatibilityMode in
  let aPlotter := AddLineToHeader aPlotter text in
  let date := GetTimeNow in
  let msg := Format_z date in
  (* [if( msg.Len() > 3 ) msg.insert( 3, ":", 1 ), text.Printf( ... );]
     the comma makes the [Printf] part of the guarded statement *)
  let '(msg, text) :=
    if (3 <? Len msg)%nat then
      let msg := insert msg 3 (ch ":") in
      (msg, wxT "%TF.CreationDate," ++ FormatISOCombined date ++ msg ++ wxT "*%")
    else (msg, text) in
  let text := makeStringCompatX1 text aUseX1CompatibilityMode in
  let aPlotter := AddLineToHeader aPlotter text in
  let fn := wxFileName_of (GetFileName aBoard) in
  let msg := GetFullName fn in
  let guid := makeProjectGUIDfromString msg in
  let msg := GetName fn in
  let msg := Replace msg (ch ",") (wxT "_") in
  let rev := GetRevision aBoard in
  let rev := Replace rev (ch ",") (wxT "_") in
  let rev := if IsEmpty rev then wxT "rev?" else rev in
  let text := wxT "%TF.ProjectId," ++ ToAscii msg ++ wxT "," ++ guid
              ++ wxT "," ++ ToAscii rev ++ wxT "*%" in
  let text := makeStringCompatX1 text aUseX1CompatibilityMode in
  let aPlotter := AddLineToHeader aPlotter text in
  let registration_id := wxT "Original" in
  let auxOrigin := GetAuxOrigin aBoard in
  let registration_id :=
    if m_useAuxOrigin (GetPlotOptions aBoard)
       && negb (x auxOrigin =? 0) && negb (y auxOrigin =? 0)
    then wxT "PX" ++ format_x 1 (x auxOrigin) ++ wxT "PY" ++ format_x 1 (y auxOrigin)
    else registration_id in
  let text := wxT "%TF.SameCoordinates," ++ registration_id ++ wxT "*%" in
  let text := makeStringCompatX1 text aUseX1CompatibilityMode in
  AddLineToHeader aPlotter text.

Definition AddGerberX2Attribute (aPlotter : PLOTTER) (aBoard : BOARD)
  (aLayer : LAYER_NUM) (aUseX1CompatibilityMode : bool) : PLOTTER :=
  let aPlotter := AddGerberX2Header aPlotter aBoard aUseX1CompatibilityMode in
  let text := GetGerberFileFunctionAttribute (GetCopperLayerCount aBoard) aLayer in
  let text := makeStringCompatX1 text aUseX1CompatibilityMode in
  let aPlotter := AddLineToHeader aPlotter text in
  let text := GetGerberFilePolarityAttribute aLayer in
  if negb (IsEmpty text) then
    AddLineToHeader aPlotter (makeStringCompatX1 text aUseX1CompatibilityMode)
  else aPlotter.

(** The lines a call added to the plotter's header. *)
Definition emitted (before after : PLOTTER) : list wxString :=
  skipn (List.length (m_headerExtraLines before)) (m_headerExtraLines after).

(** The specification's reading of the second line. *)
Definition specified_creation_line : wxString :=
  wxT "%TF.CreationDate," ++ FormatISOCombined GetTimeNow
  ++ colon_before_last_two (Format_z GetTimeNow) ++ wxT "*%".

End Header.

(** ** Plot controller *)

Record PLOT_CONTROLLER := {
  m_plotLayer : LAYER_NUM;
  m_plotOptions : PCB_PLOT_PARAMS;
  m_plotter : option PLOTTER;       (* [None] is the null pointer *)
  m_plotFile : wxFileName;
  m_board : BOARD
}.

(** What the controller does to the outside, in the order it does it. *)
Inductive plot_event :=
| EndPlot (p : PLOTTER)
| Delete (p : PLOTTER)
| EnsureDirectory (dir : wxFileName) (reference : wxString) (ok : bool)
| StartPlot (file : wxString) (made : option PLOTTER).

Definition set_plotter (c : PLOT_CONTROLLER) (p : option PLOTTER) : PLOT_CONTROLLER :=
  {| m_plotLayer := m_plotLayer c; m_plotOptions := m_plotOptions c;
     m_plotter := p; m_plotFile := m_plotFile c; m_board := m_board c |}.
Definition set_plotOptions (c : PLOT_CONTROLLER) (o : PCB_PLOT_PARAMS) : PLOT_CONTROLLER :=
  {| m_plotLayer := m_plotLayer c; m_plotOptions := o;
     m_plotter := m_plotter c; m_plotFile := m_plotFile c; m_board := m_board c |}.
Definition set_plotFile (c : PLOT_CONTROLLER) (f : wxFileName) : PLOT_CONTROLLER :=
  {| m_plotLayer := m_plotLayer c; m_plotOptions := m_plotOptions c;
     m_plotter := m_plotter c; m_plotFile := f; m_board := m_board c |}.

(** The controller together with the trace of its outside calls. *)
Definition session : Type := PLOT_CONTROLLER * list plot_event.

Definition ClosePlot (s : session) : session :=
  let '(c, trace) := s in
  match m_plotter c with
  | Some p => (set_plotter c None, trace ++ [EndPlot p; Delete p])
  | None => (c, trace)
  end.

(** What closing the plotter held by [c] shows to the outside. *)
Definition closing_events (c : PLOT_CONTROLLER) : list plot_event :=
  match m_plotter c with
  | Some p => [EndPlot p; Delete p]
  | None => []
  end.

Definition is_open (c : PLOT_CONTROLLER) : bool :=
  match m_plotter c with Some _ => true | None => false end.

Section Controller.
Context {ids : LayerIds}.
(** Collaborators defined elsewhere in the program: the directory helper
    (it returns its verdict and the directory it settled on), the plotter
    factory (a null pointer is [None]), the default extension of a
    format, the layer conversion and the two [wxFileName] parsers. *)
Variable EnsureFileDirectoryExists : wxFileName -> wxString -> bool * wxFileName.
Variable StartPlotBoard :
  BOARD -> PCB_PLOT_PARAMS -> LAYER_NUM -> wxString -> wxString -> option PLOTTER.
Variable GetDefaultPlotExtension : PlotFormat -> wxString.
Variable ToLAYER_ID : LAYER_NUM -> LAYER_NUM.
Variable wxFileName_DirName : wxString -> wxFileName.
Variable wxFileName_of : wxString -> wxFileName.

(** The file name [OpenPlotfile] settles on once the directory is there. *)
Definition plot_file_name (c : PLOT_CONTROLLER) (outputDir : wxFileName)
  (aSuffix : wxString) (aFormat : PlotFormat) : wxFileName :=
  let boardFilename := GetFileName (m_board c) in
  let plotFile := wxFileName_of boardFilename in
  let plotFile := SetPath plotFile (GetPath outputDir) in
  let fileExt := GetDefaultPlotExtension aFormat in
  let fileExt :=
    if PlotFormat_eqb (m_format (m_plotOptions c)) PLOT_FORMAT_GERBER
       && m_useGerberProtelExtensions (m_plotOptions c)
    then GetGerberProtelExtension (m_plotLayer c) else fileExt in
  BuildPlotFileName plotFile (GetPath outputDir) aSuffix fileExt.

Definition OpenPlotfile (s : session) (aSuffix : wxString)
  (aFormat : PlotFormat) (aSheetDesc : wxString) : bool * session :=
  let '(c, trace) := s in
  let c := set_plotOptions c (SetFormat (m_plotOptions c) aFormat) in
  let '(c, trace) := ClosePlot (c, trace) in
  let outputDirName := m_outputDirectory (m_plotOptions c) in
  let outputDir := wxFileName_DirName outputDirName in
  let boardFilename := GetFileName (m_board c) in
  let '(ok, outputDir') := EnsureFileDirectoryExists outputDir boardFilename in
  let trace := trace ++ [EnsureDirectory outputDir boardFilename ok] in
  let '(c, trace) :=
    if ok then
      let c := set_plotFile c (plot_file_name c outputDir' aSuffix aFormat) in
      let file := GetFullPath (m_plotFile c) in
      let made := StartPlotBoard (m_board c) (m_plotOptions c)
                    (ToLAYER_ID (m_plotLayer c)) file aSheetDesc in
      (set_plotter c made, trace ++ [StartPlot file made])
    else (c, trace) in
  (is_open c, (c, trace)).

End Controller.

(** ** Reading a GUID back *)

(** The low bytes of the first 15 characters of the name filled up to 16
    characters, which is all a GUID is made of. *)
Definition low_bytes (name : wxString) : list Z :=
  map (fun c => Z.land c 0xFF) (firstn 15 (right_pad16 name)).

Definition is_byte (v : Z) : Prop := 0 <= v < 256.

Definition hex_of_bytes (bytes : list Z) : wxString :=
  flat_map (format_x 2) bytes.

(** Thirty hexadecimal digits cut 8-4-3-3-12, the third group headed by the
    version digit and the fourth by the tag digit. *)
Definition guid_layout (h : wxString) : wxString :=
  firstn 8 h ++ wxT "-" ++ firstn 4 (skipn 8 h) ++ wxT "-1"
  ++ firstn 3 (skipn 12 h) ++ wxT "-9" ++ firstn 3 (skipn 15 h)
  ++ wxT "-" ++ skipn 18 h.

(** The way back: the digits of a GUID without dashes, version and tag. *)
Definition guid_digits (g : wxString) : wxString :=
  firstn 8 g ++ firstn 4 (skipn 9 g) ++ firstn 3 (skipn 15 g)
  ++ firstn 3 (skipn 20 g) ++ skipn 24 g.

Definition hex_value (c : wxUniChar) : Z :=
  if c <=? ch "9" then c - ch "0" else c - ch "a" + 10.

Fixpoint bytes_of_hex (h : wxString) : list Z :=
  match h with
  | hi :: lo :: h' => (16 * hex_value hi + hex_value lo) :: bytes_of_hex h'
  | _ => []
  end.

Definition guid_bytes (g : wxString) : list Z := bytes_of_hex (guid_digits g).

(** ** Checks on strings *)

Fixpoint wx_eqb (a b : wxString) : bool :=
  match a, b with
  | [], [] => true
  | c :: a', d :: b' => (c =? d) && wx_eqb a' b'
  | _, _ => false
  end.

(** What [%d] prints: digits and a minus sign. *)
Definition is_decimal_char (c : wxUniChar) : bool :=
  (c =? ch "-") || ((ch "0" <=? c) && (c <=? ch "9")).

Definition not_percent (c : wxUniChar) : bool := negb (c =? ch "%").

Definition no_percent (s : wxString) : bool :=
  forallb (fun c => negb (c =? ch "%")) s.

(** A value that can stand between [%TF.FileFunction,] and [*%]. *)
Definition payload_ok (v : wxString) : bool := negb (IsEmpty v) && no_percent v.

(** A character [BuildPlotFileName] leaves alone. *)
Definition allowed (c : wxUniChar) : bool := negb (is_forbidden c).

(** Characters that can stand in a file extension as they are. *)
Definition plain_char (c : wxUniChar) : bool :=
  negb (is_forbidden c) && negb (wxSafeIsspace c) && negb (c =? ch ".").

(** An extension that begins with [g] and is made of plain characters. *)
Definition extension_ok (e : wxString) : bool :=
  match e with
  | c :: _ => (c =? ch "g") && forallb plain_char e
  | [] => false
  end.

Definition commas (s : wxString) : nat := count_occ Z.eq_dec s (ch ",").

Definition starts_with (prefix s : wxString) : bool :=
  wx_eqb prefix (firstn (List.length prefix) s).

(** ** The rest of the plot controller *)

(** [PLOT_CONTROLLER::PLOT_CONTROLLER( aBoard )]; the layer it starts with
    and the default-constructed plot options come from headers outside the
    file. *)
Definition PLOT_CONTROLLER_new (UNDEFINED_LAYER : LAYER_NUM)
  (default_options : PCB_PLOT_PARAMS) (aBoard : BOARD) : PLOT_CONTROLLER :=
  {| m_plotLayer := UNDEFINED_LAYER; m_plotOptions := default_options;
     m_plotter := None;
     m_plotFile := {| m_relative := true; m_dirs := []; m_name := [];
                      m_ext := []; m_hasExt := false |};
     m_board := aBoard |}.

(** [PLOT_CONTROLLER::~PLOT_CONTROLLER()] *)
Definition PLOT_CONTROLLER_delete (s : session) : session := ClosePlot s.

Section ControllerRest.
(** [PlotOneBoardLayer] draws on the plotter it is handed; the colour mode
    is kept by the plotter. *)
Variable PlotOneBoardLayer :
  BOARD -> PLOTTER -> LAYER_NUM -> PCB_PLOT_PARAMS -> PLOTTER.
Variable ToLAYER_ID : LAYER_NUM -> LAYER_NUM.
Variable PLOTTER_SetColorMode : PLOTTER -> bool -> PLOTTER.
Variable PLOTTER_GetColorMode : PLOTTER -> bool.

Definition PlotLayer (s : session) : bool * session :=
  let '(c, trace) := s in
  match m_plotter c with
  | None => (false, (c, trace))
  | Some p =>
      let p := PlotOneBoardLayer (m_board c) p (ToLAYER_ID (m_plotLayer c))
                 (m_plotOptions c) in
      (true, (set_plotter c (Some p), trace))
  end.

Definition SetColorMode (s : session) (aColorMode : bool) : session :=
  let '(c, trace) := s in
  match m_plotter c with
  | None => (c, trace)
  | Some p => (set_plotter c (Some (PLOTTER_SetColorMode p aColorMode)), trace)
  end.

Definition GetColorMode (s : session) : bool :=
  let '(c, trace) := s in
  match m_plotter c with
  | None => false
  | Some p => PLOTTER_GetColorMode p
  end.

End ControllerRest.

(** One call on a controller; every call meets its own collaborators. *)
Inductive controller_step {ids : LayerIds} : session -> session -> Prop :=
| step_OpenPlotfile
    (ensure : wxFileName -> wxString -> bool * wxFileName)
    (start : BOARD -> PCB_PLOT_PARAMS -> LAYER_NUM -> wxString -> wxString
             -> option PLOTTER)
    (extension : PlotFormat -> wxString) (toLayer : LAYER_NUM -> LAYER_NUM)
    (dirName fileName : wxString -> wxFileName)
    (s : session) (aSuffix : wxString) (aFormat : PlotFormat) (aSheetDesc : wxString) :
    controller_step s
      (snd (OpenPlotfile ensure start extension toLayer dirName fileName
              s aSuffix aFormat aSheetDesc))
| step_ClosePlot (s : session) : controller_step s (ClosePlot s)
| step_PlotLayer
    (plot : BOARD -> PLOTTER -> LAYER_NUM -> PCB_PLOT_PARAMS -> PLOTTER)
    (toLayer : LAYER_NUM -> LAYER_NUM) (s : session) :
    controller_step s (snd (PlotLayer plot toLayer s))
| step_SetColorMode (setMode : PLOTTER -> bool -> PLOTTER) (s : session) (b : bool) :
    controller_step s (SetColorMode setMode s b).

(** Any number of calls. *)
Inductive controller_run {ids : LayerIds} : session -> session -> Prop :=
| run_done (s : session) : controller_run s s
| run_step (s t u : session) :
    controller_run s t -> controller_step t u -> controller_run s u.

(** Plotters made and plotters deleted, as the trace shows them. *)
Definition made_count (trace : list plot_event) : nat :=
  List.length
    (filter (fun e => match e with StartPlot _ (Some _) => true | _ => false end) trace).

Definition deleted_count (trace : list plot_event) : nat :=
  List.length
    (filter (fun e => match e with Delete _ => true | _ => false end) trace).

Definition held_count (c : PLOT_CONTROLLER) : nat := if is_open c then 1 else 0.

(** Every plotter made is either deleted or the one the controller holds. *)
Definition balanced (s : session) : Prop :=
  made_count (snd s) = (deleted_count (snd s) + held_count (fst s))%nat.

Definition PLOTTER_eqb (p q : PLOTTER) : bool :=
  (m_backend p =? m_backend q)
  && (fix eqb (a b : list wxString) : bool :=
        match a, b with
        | [], [] => true
        | u :: a', v :: b' => wx_eqb u v && eqb a' b'
        | _, _ => false
        end) (m_headerExtraLines p) (m_headerExtraLines q).

(** Every [EndPlot] is followed at once by the [Delete] of the same
    plotter, and nothing is deleted otherwise. *)
Fixpoint well_paired (trace : list plot_event) : bool :=
  match trace with
  | [] => true
  | EndPlot p :: Delete q :: trace' => PLOTTER_eqb p q && well_paired trace'
  | EndPlot _ :: _ => false
  | Delete _ :: _ => false
  | _ :: trace' => well_paired trace'
  end.

(** ** Sample data *)

(** The numbering above, a board and a plotter to run the functions on. *)
Definition sample_options (useAuxOrigin : bool) : PCB_PLOT_PARAMS :=
  {| m_format := PLOT_FORMAT_GERBER; m_outputDirectory := wxT "/out";
     m_useGerberProtelExtensions := true; m_useAuxOrigin := useAuxOrigin |}.

Definition sample_board (revision : wxString) (useAuxOrigin : bool)
  (origin : wxPoint) : BOARD :=
  {| GetFileName := wxT "board.kicad_pcb"; GetCopperLayerCount := 4;
     GetRevision := revision; GetAuxOrigin := origin;
     GetPlotOptions := sample_options useAuxOrigin |}.

Definition sample_plotter : PLOTTER :=
  {| m_headerExtraLines := [wxT "G04 earlier line*"]; m_backend := 7 |}.

Definition sample_date (offset : string) : wxDateTime :=
  {| FormatISOCombined := wxT "2018-06-01T10:20:30"; Format_z := wxT offset |}.

(** A stand-in for the parsing constructor of [wxFileName]: the text after
    the last dot is the extension. *)
Fixpoint split_last_dot (s : wxString) : option (wxString * wxString) :=
  match s with
  | [] => None
  | c :: s' =>
      match split_last_dot s' with
      | Some (name, ext) => Some (c :: name, ext)
      | None => if c =? ch "." then Some ([], s') else None
      end
  end.

Definition sample_wxFileName (s : wxString) : wxFileName :=
  match split_last_dot s with
  | Some (name, ext) =>
      {| m_relative := true; m_dirs := []; m_name := name; m_ext := ext;
         m_hasExt := true |}
  | None => base_name s
  end.

(** Stand-ins for the collaborators of the controller. *)
Definition sample_ensure (ok : bool) (dir : wxFileName) (reference : wxString)
  : bool * wxFileName := (ok, dir).

Definition sample_start (made : option PLOTTER) (b : BOARD) (o : PCB_PLOT_PARAMS)
  (l : LAYER_NUM) (file sheet : wxString) : option PLOTTER := made.

Definition sample_DirName (s : wxString) : wxFileName := SetPath (base_name []) s.

Definition fresh_plotter : PLOTTER := {| m_headerExtraLines := []; m_backend := 8 |}.

Definition sample_controller (held : option PLOTTER) : PLOT_CONTROLLER :=
  {| m_plotLayer := 0; m_plotOptions := sample_options false;
     m_plotter := held; m_plotFile := base_name [];
     m_board := sample_board [] false {| x := 0; y := 0 |} |}.

(** A short life of a controller: a plot is opened, a layer is drawn, a
    second [OpenPlotfile] fails on its directory. *)
Definition sample_new : session :=
  (PLOT_CONTROLLER_new (-1) (sample_options false)
     (sample_board [] false {| x := 0; y := 0 |}), []).

Definition sample_opened : session :=
  snd (@OpenPlotfile kicad_layer_ids (sample_ensure true)
         (sample_start (Some fresh_plotter)) (fun _ => wxT "gbr") (fun l => l)
         sample_DirName sample_wxFileName sample_new (wxT "F.Cu")
         PLOT_FORMAT_GERBER []).

Definition sample_drawn : session :=
  snd (PlotLayer (fun _ p _ _ => AddLineToHeader p (wxT "G04 layer*"))
         (fun l => l) sample_opened).

Definition sample_reopened : session :=
  snd (@OpenPlotfile kicad_layer_ids (sample_ensure false)
         (sample_start (Some fresh_plotter)) (fun _ => wxT "gbr") (fun l => l)
         sample_DirName sample_wxFileName sample_drawn (wxT "B.Cu")
         PLOT_FORMAT_GERBER []).

(** * Properties *)

(** ** Layer classification *)

Section LayerFacts.
Context {ids : LayerIds}.

Lemma succ_layer (l : LAYER_NUM) :
  Int.INT_MIN <= l < Int.INT_MAX -> Int.add l 1 = l + 1.
Proof.
  unfold Int.add, Int.wrap, Int.INT_MIN, Int.INT_MAX. intros H.
  rewrite Z.mod_small; lia.
Qed.

Lemma all_distinct_cons (a : Z) (l : list Z) :
  all_distinct (a :: l) = true ->
  Forall (fun b => a <> b) l /\ all_distinct l = true.
Proof.
  cbn [all_distinct]. intros H. apply andb_prop in H. destruct H as [H1 H2].
  split; [ | exact H2 ].
  apply Forall_forall. intros b Hb ->.
  apply negb_true_iff in H1.
  assert (existsb (Z.eqb b) l = true) as E
      by (apply existsb_exists; exists b; split; [ exact Hb | apply Z.eqb_refl ]).
  congruence.
Qed.

Lemma forallb_Forall_false (f : Z -> bool) (l : list Z) :
  forallb (fun b => negb (f b)) l = true -> Forall (fun b => f b = false) l.
Proof.
  intros H. apply Forall_forall. intros b Hb.
  rewrite forallb_forall in H. apply negb_true_iff. now apply H.
Qed.

Ltac open_Forall :=
  repeat match goal with
         | H : Forall _ (_ :: _) |- _ =>
             apply Forall_cons_iff in H; destruct H as [? H]
         | H : Forall _ [] |- _ => clear H
         end.

(** Turns [layer_ids_ok = true] into its separate facts. *)
Ltac ids_facts H :=
  unfold layer_ids_ok, named_technical_layers in H;
  let Hd := fresh "Hd" in
  let Hn := fresh "Hn" in
  apply andb_prop in H; destruct H as [H Hn];
  apply andb_prop in H; destruct H as [H ?];
  apply andb_prop in H; destruct H as [Hd ?];
  apply forallb_Forall_false in Hn;
  repeat (apply all_distinct_cons in Hd;
          let Hf := fresh "Hf" in destruct Hd as [Hf Hd]);
  clear Hd; open_Forall.

(** Decides the comparisons of the goal the context settles. *)
Ltac settle_eqb :=
  repeat match goal with
         | |- context [ (?a =? ?b) ] =>
             first
               [ rewrite (Z.eqb_refl a)
               | match goal with
                 | H : a <> b |- _ => rewrite (proj2 (Z.eqb_neq a b) H)
                 | H : b <> a |- _ =>
                     rewrite (proj2 (Z.eqb_neq a b) (not_eq_sym H))
                 end ]
         end.

Lemma FilePolarity_polarity_eq (l : LAYER_NUM) :
  FilePolarity_polarity l =
    if is_adhesive l || is_silkscreen l || is_paste l then 1
    else if is_mask l then -1
    else if IsCopperLayer l then 1 else 0.
Proof.
  unfold FilePolarity_polarity, is_adhesive, is_silkscreen, is_paste, is_mask.
  now rewrite !orb_assoc.
Qed.

Lemma mask_is_nothing_else (l : LAYER_NUM) :
  layer_ids_ok = true -> is_mask l = true ->
  is_adhesive l || is_silkscreen l || is_paste l = false
  /\ IsCopperLayer l = false.
Proof.
  intros Hok Hm. ids_facts Hok.
  unfold is_mask in Hm. apply orb_true_iff in Hm.
  unfold is_adhesive, is_silkscreen, is_paste.
  destruct Hm as [Hm | Hm]; apply Z.eqb_eq in Hm; subst l;
    settle_eqb; split; trivial.
Qed.

(** C5. On a copper layer [GetGerberProtelExtension] gives [gtl] for the
    front layer, [gbl] for the back layer and [g] followed by the decimal
    [N+1] for any other one, [N] being the layer's number (with [N+1]
    still an [int]). *)
Theorem GetGerberProtelExtension_copper (l : LAYER_NUM) :
  F_Cu <> B_Cu ->
  IsCopperLayer l = true ->
  (l = F_Cu -> GetGerberProtelExtension l = wxT "gtl")
  /\ (l = B_Cu -> GetGerberProtelExtension l = wxT "gbl")
  /\ (l <> F_Cu -> l <> B_Cu -> Int.INT_MIN <= l < Int.INT_MAX ->
      GetGerberProtelExtension l = wxT "g" ++ format_d (l + 1)).
Proof.
  intros Hfb Hcu. unfold GetGerberProtelExtension. rewrite Hcu.
  repeat split; intros.
  - subst. now rewrite Z.eqb_refl.
  - subst. settle_eqb; reflexivity.
  - rewrite succ_layer by assumption. settle_eqb; reflexivity.
Qed.

(** C4. [GetGerberFilePolarityAttribute] is the positive line on adhesive,
    silkscreen, paste and copper layers, the negative line on mask layers,
    and empty exactly on the layers that are none of these. *)
Theorem GetGerberFilePolarityAttribute_cases (l : LAYER_NUM) :
  layer_ids_ok = true ->
  (is_adhesive l || is_silkscreen l || is_paste l || IsCopperLayer l = true ->
   GetGerberFilePolarityAttribute l = Positive)
  /\ (is_mask l = true -> GetGerberFilePolarityAttribute l = Negative)
  /\ (GetGerberFilePolarityAttribute l = []
      <-> is_adhesive l || is_silkscreen l || is_paste l || is_mask l
          || IsCopperLayer l = false).
Proof.
  intros Hok. pose proof (mask_is_nothing_else l Hok) as Hmask.
  unfold GetGerberFilePolarityAttribute. rewrite FilePolarity_polarity_eq.
  destruct (is_adhesive l || is_silkscreen l || is_paste l),
    (is_mask l), (IsCopperLayer l); cbn in *;
    try (destruct (Hmask eq_refl); discriminate);
    repeat split; intros; try reflexivity; try discriminate.
Qed.

Lemma inner_copper_is_unnamed (l : LAYER_NUM) :
  layer_ids_ok = true -> IsCopperLayer l = true ->
  ~ In l named_technical_layers.
Proof.
  intros Hok Hcu Hin. unfold layer_ids_ok in Hok.
  rewrite !andb_true_iff in Hok. destruct Hok as [_ Hnc].
  rewrite forallb_forall in Hnc. apply Hnc in Hin.
  rewrite Hcu in Hin. discriminate.
Qed.

Ltac split_not_in H :=
  cbn [In named_technical_layers] in H;
  repeat match goal with
         | H' : ~ (_ \/ _) |- _ =>
             apply Decidable.not_or in H'; destruct H'
         end.

(** C3. [GetGerberFileFunctionAttribute] always returns a line
    [%TF.FileFunction,<value>*%]: [Copper,L1,Top] on the front copper
    layer, [Copper,L<count>,Bot] on the back one, [Copper,L<N+1>,Inr] on
    any other copper layer, [Profile,NP] on the board outline, a fixed
    label on each other layer the function names, and [Other,User] on
    every layer it does not recognise. *)
Theorem GetGerberFileFunctionAttribute_cases (count : Z) :
  layer_ids_ok = true ->
  (forall l, exists value,
      GetGerberFileFunctionAttribute count l = FileFunction_line value)
  /\ GetGerberFileFunctionAttribute count F_Cu
     = FileFunction_line (wxT "Copper,L1,Top")
  /\ GetGerberFileFunctionAttribute count B_Cu
     = FileFunction_line (wxT "Copper,L" ++ format_d count ++ wxT ",Bot")
  /\ (forall l, IsCopperLayer l = true -> l <> F_Cu -> l <> B_Cu ->
                Int.INT_MIN <= l < Int.INT_MAX ->
                GetGerberFileFunctionAttribute count l
                = FileFunction_line
                    (wxT "Copper,L" ++ format_d (l + 1) ++ wxT ",Inr"))
  /\ GetGerberFileFunctionAttribute count Edge_Cuts
     = FileFunction_line (wxT "Profile,NP")
  /\ map (GetGerberFileFunctionAttribute count)
       [ F_Adhes; B_Adhes; F_SilkS; B_SilkS; F_Mask; B_Mask; F_Paste; B_Paste;
         Dwgs_User; Cmts_User; Eco1_User; Eco2_User; B_Fab; F_Fab ]
     = map (fun v => FileFunction_line (wxT v))
         [ "Glue,Top"; "Glue,Bot"; "Legend,Top"; "Legend,Bot";
           "Soldermask,Top"; "Soldermask,Bot"; "Paste,Top"; "Paste,Bot";
           "Drawing"; "Other,Comment"; "Other,ECO1"; "Other,ECO2";
           "Other,Fab,Bot"; "Other,Fab,Top" ]%string
  /\ (forall l, unrecognized l ->
                GetGerberFileFunctionAttribute count l
                = FileFunction_line (wxT "Other,User")).
Proof.
  intros Hok.
  split; [ intros l; eexists; reflexivity | ].
  pose proof (inner_copper_is_unnamed) as Hinner.
  assert (Hok' := Hok). ids_facts Hok'.
  unfold GetGerberFileFunctionAttribute, FileFunction_attrib, FileFunction_line.
  repeat split.
  - settle_eqb; reflexivity.
  - settle_eqb; reflexivity.
  - intros l Hcu Hf Hb Hr. specialize (Hinner l Hok Hcu).
    split_not_in Hinner. settle_eqb. rewrite Hcu.
    rewrite succ_layer by assumption. reflexivity.
  - settle_eqb; reflexivity.
  - cbn [map]. settle_eqb; reflexivity.
  - intros l [Hin Hcu]. split_not_in Hin. settle_eqb. rewrite Hcu. reflexivity.
Qed.

End LayerFacts.

(** C5 run on KiCad's numbering: the front, the back and the first inner
    copper layer. *)
Lemma GetGerberProtelExtension_copper_witness :
  @GetGerberProtelExtension kicad_layer_ids 0 = wxT "gtl"
  /\ @GetGerberProtelExtension kicad_layer_ids 31 = wxT "gbl"
  /\ @GetGerberProtelExtension kicad_layer_ids 1 = wxT "g2".
Proof.
  pose proof (@GetGerberProtelExtension_copper kicad_layer_ids) as T.
  assert (Hfb : @F_Cu kicad_layer_ids <> @B_Cu kicad_layer_ids) by (cbn; lia).
  split; [ | split ].
  - apply (T 0 Hfb eq_refl). reflexivity.
  - apply (T 31 Hfb eq_refl). reflexivity.
  - apply (T 1 Hfb eq_refl); cbn; unfold Int.INT_MIN, Int.INT_MAX; lia.
Defined.

(** C4 run on KiCad's numbering: front silkscreen (37), an inner copper
    layer (5), the front mask (39) and the board outline (44). *)
Lemma GetGerberFilePolarityAttribute_cases_witness :
  @layer_ids_ok kicad_layer_ids = true
  /\ @GetGerberFilePolarityAttribute kicad_layer_ids 37 = Positive
  /\ @GetGerberFilePolarityAttribute kicad_layer_ids 5 = Positive
  /\ @GetGerberFilePolarityAttribute kicad_layer_ids 39 = Negative
  /\ @GetGerberFilePolarityAttribute kicad_layer_ids 44 = [].
Proof.
  pose proof (fun l => @GetGerberFilePolarityAttribute_cases kicad_layer_ids l eq_refl) as T.
  split; [ reflexivity | ]. split; [ | split; [ | split ] ].
  - apply (T 37). reflexivity.
  - apply (T 5). reflexivity.
  - apply (T 39). reflexivity.
  - apply (T 44). reflexivity.
Defined.

(** C3 run on KiCad's numbering, with a board of 4 copper layers: the first
    inner copper layer (1) and the margin layer (45), which the function
    does not name. *)
Lemma GetGerberFileFunctionAttribute_cases_witness :
  @layer_ids_ok kicad_layer_ids = true
  /\ @GetGerberFileFunctionAttribute kicad_layer_ids 4 31
     = wxT "%TF.FileFunction,Copper,L4,Bot*%"
  /\ @GetGerberFileFunctionAttribute kicad_layer_ids 4 1
     = wxT "%TF.FileFunction,Copper,L2,Inr*%"
  /\ @GetGerberFileFunctionAttribute kicad_layer_ids 4 45
     = wxT "%TF.FileFunction,Other,User*%".
Proof.
  pose proof (@GetGerberFileFunctionAttribute_cases kicad_layer_ids 4 eq_refl)
    as (_ & _ & Hback & Hinner & _ & _ & Hother).
  split; [ reflexivity | ]. split; [ | split ].
  - exact Hback.
  - apply (Hinner 1); [ reflexivity | cbn; lia | cbn; lia | ].
    unfold Int.INT_MIN, Int.INT_MAX. lia.
  - apply (Hother 45). split; [ | reflexivity ].
    cbn. intuition discriminate.
Defined.

(** ** Project GUID *)

Section Guid.

(** A property checked on every value below a bound holds below it. *)
Lemma checked_below (P : Z -> bool) (n : nat) :
  forallb P (map Z.of_nat (seq 0 n)) = true ->
  forall v, 0 <= v < Z.of_nat n -> P v = true.
Proof.
  intros Hall v Hv. rewrite forallb_forall in Hall. apply Hall.
  rewrite <- (Z2Nat.id v) by lia. apply in_map, in_seq. lia.
Qed.

Lemma format_x_byte (v : Z) :
  0 <= v < 256 -> matches [Hex; Hex] (format_x 2 v) = true.
Proof.
  apply (checked_below (fun v => matches [Hex; Hex] (format_x 2 v)) 256).
  vm_compute. reflexivity.
Qed.

Lemma format_x_three_nibbles (v : Z) :
  0 <= v < 4096 -> matches [Hex; Hex; Hex] (format_x 3 v) = true.
Proof.
  apply (checked_below (fun v => matches [Hex; Hex; Hex] (format_x 3 v)) 4096).
  vm_compute. reflexivity.
Qed.

Lemma matches_app (p1 p2 : list char_class) (s1 s2 : wxString) :
  matches p1 s1 = true -> matches p2 s2 = true ->
  matches (p1 ++ p2) (s1 ++ s2) = true.
Proof.
  revert s1. induction p1 as [ | c p1 IH ]; intros s1 H1 H2.
  - destruct s1; [ exact H2 | discriminate ].
  - destruct s1 as [ | a s1 ]; [ destruct c; discriminate | ].
    destruct c; cbn in *; apply andb_prop in H1; destruct H1 as [Ha H1];
      rewrite Ha; cbn; now apply IH.
Qed.

Lemma low_byte (c : Z) : 0 <= Z.land c 0xFF < 256.
Proof.
  change 0xFF with (Z.ones 8). rewrite Z.land_ones by lia.
  apply Z.mod_pos_bound. lia.
Qed.

(** [int( a ) << 4 & 0xFF0] plus [int( b ) >> 4 & 0x0F] *)
Lemma version_field_bound (a b : Z) :
  0 <= Z.land (Z.shiftl a 4) 0xFF0 + Z.land (Z.shiftr b 4) 0x0F < 4096.
Proof.
  change 0xFF0 with (Z.shiftl (Z.ones 8) 4). rewrite <- Z.shiftl_land.
  change 0x0F with (Z.ones 4).
  rewrite !Z.land_ones, Z.shiftl_mul_pow2 by lia.
  pose proof (Z.mod_pos_bound a (2 ^ 8) ltac:(lia)).
  pose proof (Z.mod_pos_bound (Z.shiftr b 4) (2 ^ 4) ltac:(lia)). lia.
Qed.

(** [( int( a ) & 0x0F ) << 8] plus [int( b ) & 0xFF] *)
Lemma variant_field_bound (a b : Z) :
  0 <= Z.shiftl (Z.land a 0x0F) 8 + Z.land b 0xFF < 4096.
Proof.
  change 0x0F with (Z.ones 4). change 0xFF with (Z.ones 8).
  rewrite !Z.land_ones, Z.shiftl_mul_pow2 by lia.
  pose proof (Z.mod_pos_bound a (2 ^ 4) ltac:(lia)).
  pose proof (Z.mod_pos_bound b (2 ^ 8) ltac:(lia)). lia.
Qed.

Lemma pad_count_short (s : wxString) :
  (List.length s <= 16)%nat -> pad_count s = 16 - Z.of_nat (List.length s).
Proof.
  intros H. unfold pad_count, Len.
  rewrite Z.mod_small by lia. unfold Int.wrap.
  rewrite Z.mod_small; lia.
Qed.

(** The working buffer holds at least 16 characters. *)
Lemma padded_name_length (s : wxString) :
  (16 <= List.length (padded_name s))%nat.
Proof.
  unfold padded_name, Append.
  destruct (Nat.le_gt_cases 16 (List.length s)) as [Hlong | Hshort].
  - destruct (0 <? pad_count s); [ rewrite length_app | ]; lia.
  - rewrite pad_count_short by lia.
    destruct (Z.ltb_spec 0 (16 - Z.of_nat (List.length s))); [ | lia ].
    rewrite length_app, repeat_length. lia.
Qed.

(** Below index 16 the working buffer is the name filled up with the
    filler to 16 characters. *)
Lemma padded_name_chars (s : wxString) (k : nat) :
  (k < 16)%nat -> char_at (padded_name s) k = char_at (right_pad16 s) k.
Proof.
  intros Hk. unfold padded_name, right_pad16, Append, char_at.
  destruct (Nat.le_gt_cases 16 (List.length s)) as [Hlong | Hshort].
  - replace (16 - List.length s)%nat with 0%nat by lia. cbn [repeat].
    rewrite app_nil_r.
    destruct (0 <? pad_count s); [ apply app_nth1; lia | reflexivity ].
  - rewrite pad_count_short by lia.
    destruct (Z.ltb_spec 0 (16 - Z.of_nat (List.length s))); [ | lia ].
    replace (Z.to_nat (16 - Z.of_nat (List.length s)))
      with (16 - List.length s)%nat by lia.
    reflexivity.
Qed.

Lemma right_pad16_idem (s : wxString) : right_pad16 (right_pad16 s) = right_pad16 s.
Proof.
  unfold right_pad16. rewrite length_app, repeat_length.
  replace (16 - (List.length s + (16 - List.length s)))%nat with 0%nat by lia.
  apply app_nil_r.
Qed.

(** The GUID reads the working buffer at indices 0 to 14 only. *)
Lemma guid_reads_15 (a b : wxString) :
  (forall k, (k < 15)%nat -> char_at (padded_name a) k = char_at (padded_name b) k) ->
  makeProjectGUIDfromString a = makeProjectGUIDfromString b.
Proof.
  intros H. unfold makeProjectGUIDfromString. cbn [emit_bytes].
  rewrite !(H _) by (repeat constructor). reflexivity.
Qed.

(** C1. The GUID is a function of the name alone, it has the shape
    [xxxxxxxx-xxxx-1xxx-9xxx-xxxxxxxxxxxx] in lower-case hexadecimal for
    every name, short or long, and a name shorter than 16 characters gives
    the GUID of that name filled up to 16 characters with [X]. *)
Theorem makeProjectGUIDfromString_shape (name : wxString) :
  matches guid_pattern (makeProjectGUIDfromString name) = true
  /\ (forall name', name' = name ->
                    makeProjectGUIDfromString name' = makeProjectGUIDfromString name)
  /\ makeProjectGUIDfromString name = makeProjectGUIDfromString (right_pad16 name).
Proof.
  split; [ | split ].
  - unfold makeProjectGUIDfromString. cbn [emit_bytes app].
    rewrite <- !app_assoc.
    change guid_pattern with
      ([Hex; Hex] ++ [Hex; Hex] ++ [Hex; Hex] ++ [Hex; Hex] ++ [Lit (ch "-")]
       ++ [Hex; Hex] ++ [Hex; Hex] ++ [Lit (ch "-"); Lit (ch "1")]
       ++ [Hex; Hex; Hex] ++ [Lit (ch "-"); Lit (ch "9")] ++ [Hex; Hex; Hex]
       ++ [Lit (ch "-")] ++ [Hex; Hex] ++ [Hex; Hex] ++ [Hex; Hex]
       ++ [Hex; Hex] ++ [Hex; Hex] ++ [Hex; Hex]).
    repeat first
      [ apply format_x_byte, low_byte
      | apply format_x_three_nibbles, version_field_bound
      | apply format_x_three_nibbles, variant_field_bound
      | reflexivity
      | apply matches_app ].
  - intros name' ->. reflexivity.
  - apply guid_reads_15. intros k Hk.
    rewrite !padded_name_chars by lia. now rewrite right_pad16_idem.
Qed.

(** C10. Two names whose buffers, filled up to 16 characters, agree on the
    first 15 characters get the same GUID: the 16th buffer character and
    everything after it are never read. *)
Theorem makeProjectGUIDfromString_first_15 (a b : wxString) :
  firstn 15 (right_pad16 a) = firstn 15 (right_pad16 b) ->
  makeProjectGUIDfromString a = makeProjectGUIDfromString b.
Proof.
  intros H. apply guid_reads_15. intros k Hk.
  rewrite !padded_name_chars by lia. unfold char_at.
  assert (E : forall s : wxString, nth k s 0 = nth k (firstn 15 s) 0).
  { intros s. rewrite nth_firstn. apply Nat.ltb_lt in Hk. now rewrite Hk. }
  rewrite (E (right_pad16 a)), (E (right_pad16 b)), H. reflexivity.
Qed.

End Guid.

(** C1 run on a short name. *)
Lemma makeProjectGUIDfromString_shape_witness :
  matches guid_pattern (makeProjectGUIDfromString (wxT "board")) = true
  /\ makeProjectGUIDfromString (wxT "board") = makeProjectGUIDfromString (wxT "board")
  /\ makeProjectGUIDfromString (wxT "board")
     = makeProjectGUIDfromString (wxT "boardXXXXXXXXXXX").
Proof.
  destruct (makeProjectGUIDfromString_shape (wxT "board")) as (Hshape & Hsame & Hpad).
  split; [ exact Hshape | split ].
  - exact (Hsame (wxT "board") eq_refl).
  - exact Hpad.
Defined.

(** C10 run on two names that differ from their 16th character on. *)
Lemma makeProjectGUIDfromString_first_15_witness :
  makeProjectGUIDfromString (wxT "amplifier_boardA.kicad_pcb")
  = makeProjectGUIDfromString (wxT "amplifier_boardB").
Proof.
  apply makeProjectGUIDfromString_first_15. reflexivity.
Defined.

(** ** Header assembly *)

Section HeaderFacts.
Context {ids : LayerIds}.
Variable GetBuildVersion : wxString.
Variable GetTimeNow : wxDateTime.
Variable wxFileName_of : wxString -> wxFileName.

(** C7. Without the compatibility mode [makeStringCompatX1] hands the
    line back as it got it. *)
Theorem makeStringCompatX1_off (aText : wxString) :
  makeStringCompatX1 aText false = aText.
Proof. reflexivity. Qed.

Lemma emitted_app (p q : PLOTTER) (ls : list wxString) :
  m_headerExtraLines q = m_headerExtraLines p ++ ls -> emitted p q = ls.
Proof.
  intros E. unfold emitted. rewrite E, skipn_app, skipn_all, Nat.sub_diag.
  reflexivity.
Qed.

(** The four lines of the header, the second left open. *)
Lemma AddGerberX2Header_lines (p : PLOTTER) (b : BOARD) (mode : bool) :
  exists l2,
    emitted p (AddGerberX2Header GetBuildVersion GetTimeNow wxFileName_of p b mode) =
      [ makeStringCompatX1
          (wxT "%TF.GenerationSoftware,KiCad,Pcbnew," ++ GetBuildVersion ++ wxT "*%")
          mode;
        l2;
        (let fn := wxFileName_of (GetFileName b) in
         let rev := Replace (GetRevision b) (ch ",") (wxT "_") in
         makeStringCompatX1
           (wxT "%TF.ProjectId,"
            ++ ToAscii (Replace (GetName fn) (ch ",") (wxT "_")) ++ wxT ","
            ++ makeProjectGUIDfromString (GetFullName fn) ++ wxT ","
            ++ ToAscii (if IsEmpty rev then wxT "rev?" else rev) ++ wxT "*%")
           mode);
        makeStringCompatX1
          (wxT "%TF.SameCoordinates,"
           ++ (if m_useAuxOrigin (GetPlotOptions b)
                  && negb (x (GetAuxOrigin b) =? 0)
                  && negb (y (GetAuxOrigin b) =? 0)
               then wxT "PX" ++ format_x 1 (x (GetAuxOrigin b))
                    ++ wxT "PY" ++ format_x 1 (y (GetAuxOrigin b))
               else wxT "Original")
           ++ wxT "*%")
          mode ]
    /\ ((3 < Len (Format_z GetTimeNow))%nat ->
        l2 = makeStringCompatX1
               (wxT "%TF.CreationDate," ++ FormatISOCombined GetTimeNow
                ++ insert (Format_z GetTimeNow) 3 (ch ":") ++ wxT "*%")
               mode).
Proof.
  unfold AddGerberX2Header.
  destruct (Nat.ltb_spec 3 (Len (Format_z GetTimeNow))) as [Hlong | Hshort].
  - eexists. split.
    + apply emitted_app. cbn [AddLineToHeader m_headerExtraLines].
      rewrite <- !app_assoc. reflexivity.
    + reflexivity.
  - eexists. split.
    + apply emitted_app. cbn [AddLineToHeader m_headerExtraLines].
      rewrite <- !app_assoc. reflexivity.
    + intros Hlong. lia.
Qed.

(** C2, as the code has it.  When the time zone offset has more than
    three characters, the second line of the header is the creation date
    line, passed through the compatibility transform like every line,
    with a colon put after the third character of the offset; that is
    before its last two digits when the offset is a sign and four
    digits. *)
Theorem AddGerberX2Header_creation_date (p : PLOTTER) (b : BOARD) (mode : bool) :
  (3 < Len (Format_z GetTimeNow))%nat ->
  nth_error
    (emitted p (AddGerberX2Header GetBuildVersion GetTimeNow wxFileName_of p b mode)) 1
  = Some (makeStringCompatX1
            (wxT "%TF.CreationDate," ++ FormatISOCombined GetTimeNow
             ++ insert (Format_z GetTimeNow) 3 (ch ":") ++ wxT "*%")
            mode)
  /\ (Len (Format_z GetTimeNow) = 5%nat ->
      insert (Format_z GetTimeNow) 3 (ch ":")
      = colon_before_last_two (Format_z GetTimeNow)).
Proof.
  intros Hlong. split.
  - destruct (AddGerberX2Header_lines p b mode) as [l2 [E Hl2]].
    rewrite E. cbn [nth_error]. now rewrite (Hl2 Hlong).
  - intros H5. unfold colon_before_last_two, Len in *. rewrite H5. reflexivity.
Qed.

(** X11.  With an offset of at most three characters the [Printf] of the
    creation date is skipped together with the [insert], and the second
    line is the first one handed to [makeStringCompatX1] again. *)
Lemma AddGerberX2Header_short_offset (p : PLOTTER) (b : BOARD) (mode : bool) :
  (Len (Format_z GetTimeNow) <= 3)%nat ->
  nth_error
    (emitted p (AddGerberX2Header GetBuildVersion GetTimeNow wxFileName_of p b mode)) 1
  = Some (makeStringCompatX1
            (makeStringCompatX1
               (wxT "%TF.GenerationSoftware,KiCad,Pcbnew," ++ GetBuildVersion
                ++ wxT "*%") mode) mode).
Proof.
  intros Hshort. unfold AddGerberX2Header, emitted.
  destruct (Nat.ltb_spec 3 (Len (Format_z GetTimeNow))); [ lia | ].
  cbn [AddLineToHeader m_headerExtraLines]. rewrite <- !app_assoc.
  rewrite skipn_app, skipn_all, Nat.sub_diag. reflexivity.
Qed.

(** C8. With an empty revision in the title block the project line
    carries [rev?] as its revision; the key of the coordinates line is
    [Original] when the auxiliary origin is off or has a zero coordinate,
    and is made of the hexadecimal coordinates otherwise. *)
Theorem AddGerberX2Header_revision_and_key (p : PLOTTER) (b : BOARD) (mode : bool) :
  let lines :=
    emitted p (AddGerberX2Header GetBuildVersion GetTimeNow wxFileName_of p b mode) in
  let fn := wxFileName_of (GetFileName b) in
  let origin := GetAuxOrigin b in
  (GetRevision b = [] ->
   nth_error lines 2
   = Some (makeStringCompatX1
             (wxT "%TF.ProjectId,"
              ++ ToAscii (Replace (GetName fn) (ch ",") (wxT "_")) ++ wxT ","
              ++ makeProjectGUIDfromString (GetFullName fn) ++ wxT ","
              ++ wxT "rev?" ++ wxT "*%") mode))
  /\ (m_useAuxOrigin (GetPlotOptions b) = false \/ x origin = 0 \/ y origin = 0 ->
      nth_error lines 3
      = Some (makeStringCompatX1
                (wxT "%TF.SameCoordinates," ++ wxT "Original" ++ wxT "*%") mode))
  /\ (m_useAuxOrigin (GetPlotOptions b) = true -> x origin <> 0 -> y origin <> 0 ->
      nth_error lines 3
      = Some (makeStringCompatX1
                (wxT "%TF.SameCoordinates,"
                 ++ (wxT "PX" ++ format_x 1 (x origin)
                     ++ wxT "PY" ++ format_x 1 (y origin))
                 ++ wxT "*%") mode)).
Proof.
  intros lines fn origin. subst lines fn origin.
  destruct (AddGerberX2Header_lines p b mode) as [l2 [E _]]. rewrite E.
  cbn [nth_error]. repeat split.
  - intros Hrev. rewrite Hrev. reflexivity.
  - intros Hoff. do 3 f_equal.
    destruct Hoff as [Hoff | [Hoff | Hoff]]; rewrite Hoff;
      [ reflexivity | | ]; cbn; now rewrite ?andb_false_r.
  - intros Hon Hx Hy. apply Z.eqb_neq in Hx, Hy. now rewrite Hon, Hx, Hy.
Qed.

End HeaderFacts.

(** C2 at an offset of two hours, in both modes. *)
Lemma AddGerberX2Header_creation_date_witness :
  nth_error
    (emitted sample_plotter
       (AddGerberX2Header (wxT "5.0.0") (sample_date "+0200") sample_wxFileName
          sample_plotter (sample_board [] false {| x := 0; y := 0 |}) false)) 1
  = Some (wxT "%TF.CreationDate,2018-06-01T10:20:30+02:00*%")
  /\ nth_error
       (emitted sample_plotter
          (AddGerberX2Header (wxT "5.0.0") (sample_date "+0200") sample_wxFileName
             sample_plotter (sample_board [] false {| x := 0; y := 0 |}) true)) 1
     = Some (wxT "G04 #@! TF.CreationDate,2018-06-01T10:20:30+02:00*").
Proof.
  split.
  - apply (AddGerberX2Header_creation_date (wxT "5.0.0") (sample_date "+0200")
             sample_wxFileName sample_plotter
             (sample_board [] false {| x := 0; y := 0 |}) false).
    cbn. lia.
  - apply (AddGerberX2Header_creation_date (wxT "5.0.0") (sample_date "+0200")
             sample_wxFileName sample_plotter
             (sample_board [] false {| x := 0; y := 0 |}) true).
    cbn. lia.
Defined.

(** C2 as the specification words it fails in the compatibility mode, where
    the line is a [G04] comment without percent signs, and on an offset
    that is not a sign and four digits, here one given in minutes. *)
Lemma creation_date_line_differs :
  nth_error
    (emitted sample_plotter
       (AddGerberX2Header (wxT "5.0.0") (sample_date "+0200") sample_wxFileName
          sample_plotter (sample_board [] false {| x := 0; y := 0 |}) true)) 1
  <> Some (specified_creation_line (sample_date "+0200"))
  /\ nth_error
       (emitted sample_plotter
          (AddGerberX2Header (wxT "5.0.0") (sample_date "+120") sample_wxFileName
             sample_plotter (sample_board [] false {| x := 0; y := 0 |}) false)) 1
     <> Some (specified_creation_line (sample_date "+120")).
Proof.
  split; intros H; vm_compute in H; discriminate.
Qed.

(** C8 on a board without revision and auxiliary origin, and on one with
    the origin at (0x1f4, -16). *)
Lemma AddGerberX2Header_revision_and_key_witness :
  let run b :=
    emitted sample_plotter
      (AddGerberX2Header (wxT "5.0.0") (sample_date "+0200") sample_wxFileName
         sample_plotter b false) in
  nth_error (run (sample_board [] false {| x := 500; y := -16 |})) 2
  = Some (wxT "%TF.ProjectId,board,626f6172-642e-16b6-9963-61645f706362,rev?*%")
  /\ nth_error (run (sample_board [] false {| x := 500; y := -16 |})) 3
     = Some (wxT "%TF.SameCoordinates,Original*%")
  /\ nth_error (run (sample_board (wxT "B") true {| x := 500; y := -16 |})) 3
     = Some (wxT "%TF.SameCoordinates,PX1f4PYfffffff0*%").
Proof.
  pose proof (fun b => AddGerberX2Header_revision_and_key (wxT "5.0.0")
                         (sample_date "+0200") sample_wxFileName sample_plotter b false) as T.
  cbv zeta in *. split; [ | split ].
  - apply (T (sample_board [] false {| x := 500; y := -16 |})). reflexivity.
  - apply (T (sample_board [] false {| x := 500; y := -16 |})). left. reflexivity.
  - apply (T (sample_board (wxT "B") true {| x := 500; y := -16 |}));
      [ reflexivity | cbn; lia | cbn; lia ].
Defined.

(** ** Plot file name *)

Section FileName.

Lemma TrimLeft_split (s : wxString) :
  exists pre, s = pre ++ TrimLeft s /\ blank pre
              /\ (TrimLeft s = [] \/ wxSafeIsspace (hd 0 (TrimLeft s)) = false).
Proof.
  induction s as [ | c s [pre [E [Hpre Hhd]]] ].
  - exists []. repeat split; [ constructor | now left ].
  - cbn [TrimLeft]. destruct (wxSafeIsspace c) eqn:Hc.
    + exists (c :: pre). repeat split.
      * cbn. now f_equal.
      * now constructor.
      * exact Hhd.
    + exists []. repeat split; [ constructor | right; exact Hc ].
Qed.

Lemma last_app_r (p t : wxString) (d : Z) : t <> [] -> last (p ++ t) d = last t d.
Proof.
  intros Ht. induction p as [ | a p IH ]; [ reflexivity | ].
  cbn [app last]. destruct (p ++ t) eqn:E.
  - apply app_eq_nil in E. destruct E. contradiction.
  - exact IH.
Qed.

Lemma last_rev_hd (l : wxString) (d : Z) : last (rev l) d = hd d l.
Proof. destruct l; [ reflexivity | ]. cbn [rev hd]. apply last_last. Qed.

(** [Trim( true )] followed by [Trim( false )]. *)
Lemma Trim_both (s : wxString) : trimmed_of (Trim (Trim s true) false) s.
Proof.
  unfold Trim.
  destruct (TrimLeft_split (rev s)) as [post' [Er [Hpost Hr]]].
  set (t1 := rev (TrimLeft (rev s))) in *.
  destruct (TrimLeft_split t1) as [pre [El [Hpre Hl]]].
  exists pre, (rev post'). repeat split.
  - rewrite app_assoc, <- El. subst t1.
    rewrite <- rev_app_distr, <- Er. symmetry. apply rev_involutive.
  - exact Hpre.
  - now apply Forall_rev.
  - destruct (TrimLeft t1) as [ | a t ] eqn:Et; [ now left | right ].
    destruct Hl as [Hl | Hl]; [ discriminate | ]. split; [ exact Hl | ].
    rewrite <- (last_app_r pre (a :: t) 0) by discriminate.
    rewrite <- El. subst t1. rewrite last_rev_hd.
    destruct Hr as [Hr | Hr]; [ | exact Hr ].
    rewrite Hr in El. destruct pre; discriminate.
Qed.

Lemma Replace_by_one (s : wxString) (old new : wxUniChar) :
  Replace s old [new] = map (fun c => if c =? old then new else c) s.
Proof.
  unfold Replace. induction s as [ | c s IH ]; [ reflexivity | ].
  cbn [flat_map map]. rewrite IH. now destruct (c =? old).
Qed.

(** Replacing the characters of [bad] one after the other replaces every
    character that occurs in [bad], the replacement not being one. *)
Lemma Replace_each (bad s : wxString) (new : wxUniChar) :
  ~ In new bad ->
  fold_left (fun s c => Replace s c [new]) bad s
  = map (fun c => if existsb (Z.eqb c) bad then new else c) s.
Proof.
  revert s. induction bad as [ | b bad IH ]; intros s Hnew.
  - cbn. symmetry. apply map_id.
  - cbn [fold_left]. rewrite IH by (intros Hin; apply Hnew; now right).
    rewrite Replace_by_one, map_map. apply map_ext. intros c.
    cbn [existsb]. destruct (Z.eqb_spec c b) as [-> | Hcb]; [ | reflexivity ].
    cbn [orb]. destruct (existsb (Z.eqb new) bad) eqn:E; [ | reflexivity ].
    reflexivity.
Qed.

Lemma sanitized_suffix (s : wxString) :
  fold_left (fun s c => Replace s c (wxT "_"))
    (Append GetForbiddenChars_DOS (ch "%") 1) s
  = sanitize s.
Proof.
  change (wxT "_") with [ch "_"]. rewrite Replace_each; [ reflexivity | ].
  vm_compute. intuition discriminate.
Qed.

(** C6. [BuildPlotFileName] always sets the directory and the extension:
    the result has the directories the text of the directory names, empty
    components dropped, and is absolute exactly when that text begins with
    the separator, as [SetPath] leaves them.  With [t] the suffix without
    its leading and trailing white space and every forbidden character of
    [t], or [%], turned into an underscore, the name gets a dash and that
    text appended exactly when the text is not empty.  The two examples of
    the specification come out as [/out/board-Front_Top_1.gbr] and
    [/out/board.gbr]. *)
Theorem BuildPlotFileName_spec (fn : wxFileName) (dir suffix ext : wxString) :
  (exists t,
      trimmed_of t suffix
      /\ let r := BuildPlotFileName fn dir suffix ext in
         GetPath r = GetPath (SetPath fn dir)
         /\ m_dirs r = path_dirs dir
         /\ m_relative r = negb (path_is_absolute dir)
         /\ m_ext r = ext /\ m_hasExt r = negb (IsEmpty ext)
         /\ GetName r = (if IsEmpty (sanitize t) then GetName fn
                         else GetName fn ++ wxT "-" ++ sanitize t))
  /\ GetFullPath
       (BuildPlotFileName (base_name (wxT "board")) (wxT "/out")
          (wxT "  Front/Top:1 ") (wxT "gbr"))
     = wxT "/out/board-Front_Top_1.gbr"
  /\ GetFullPath
       (BuildPlotFileName (base_name (wxT "board")) (wxT "/out") [] (wxT "gbr"))
     = wxT "/out/board.gbr".
Proof.
  split; [ | split; vm_compute; reflexivity ].
  exists (Trim (Trim suffix true) false). split; [ apply Trim_both | ].
  unfold BuildPlotFileName. rewrite sanitized_suffix.
  destruct (sanitize (Trim (Trim suffix true) false)) as [ | c t ] eqn:E;
    cbn [IsEmpty negb GetName SetName SetExt SetPath GetPath GetPath_with
         m_relative m_dirs m_name m_ext m_hasExt];
    repeat split; try reflexivity; destruct dir; reflexivity.
Qed.

Lemma path_tokens_dir (d rest token : wxString) :
  forallb (fun c => negb (is_path_separator c)) d = true ->
  path_tokens (d ++ rest) token = path_tokens rest (token ++ d).
Proof.
  revert token. induction d as [ | c d IH ]; intros token H.
  - now rewrite app_nil_r.
  - cbn [forallb] in H. apply andb_prop in H. destruct H as [Hc Hd].
    apply negb_true_iff in Hc. cbn [app path_tokens]. rewrite Hc.
    rewrite IH by exact Hd. now rewrite <- app_assoc.
Qed.

Lemma path_tokens_join (dirs : list wxString) :
  well_formed_dirs dirs = true ->
  path_tokens (join_dirs false dirs) [] = dirs.
Proof.
  induction dirs as [ | d rest IH ]; intros H; [ reflexivity | ].
  cbn [well_formed_dirs forallb] in H. apply andb_prop in H.
  destruct H as [Hd Hrest]. apply andb_prop in Hd. destruct Hd as [Hne Hsep].
  cbn [join_dirs]. rewrite path_tokens_dir by exact Hsep. cbn [app].
  destruct rest as [ | d' rest ].
  - cbn. destruct d; [ discriminate | reflexivity ].
  - change (wxT "/" ++ join_dirs false (d' :: rest))
      with (ch "/" :: join_dirs false (d' :: rest)).
    cbn [path_tokens].
    change (is_path_separator (ch "/")) with true. cbv iota.
    destruct d; [ discriminate | ]. cbn [IsEmpty app].
    f_equal. apply IH. exact Hrest.
Qed.

(** Setting the path a file name gives for its directory sets that
    directory: the path text [GetPath] returns is read back by [SetPath] as
    the same directories. *)
Lemma SetPath_GetPath (fn d : wxFileName) :
  well_formed_dirs (m_dirs d) = true ->
  m_dirs (SetPath fn (GetPath d)) = m_dirs d
  /\ m_relative (SetPath fn (GetPath d)) = m_relative d
  /\ GetPath (SetPath fn (GetPath d)) = GetPath d.
Proof.
  intros Hwf.
  assert (H : m_dirs (SetPath fn (GetPath d)) = m_dirs d
              /\ m_relative (SetPath fn (GetPath d)) = m_relative d).
  { pose proof (path_tokens_join _ Hwf) as Ht.
    unfold SetPath, GetPath, GetPath_with, path_dirs. cbn [m_dirs m_relative].
    destruct (m_relative d).
    - cbn [app]. destruct (m_dirs d) as [ | a rest ]; [ split; reflexivity | ].
      rewrite Ht.
      cbn [well_formed_dirs forallb] in Hwf. apply andb_prop in Hwf.
      destruct Hwf as [Ha _]. apply andb_prop in Ha. destruct Ha as [Hne Hsep].
      destruct a as [ | c a ]; [ discriminate | ].
      cbn [forallb] in Hsep. apply andb_prop in Hsep. destruct Hsep as [Hc _].
      cbn [join_dirs app IsEmpty path_is_absolute]. rewrite Hc. split; reflexivity.
    - change (wxT "/" ++ join_dirs false (m_dirs d))
        with (ch "/" :: join_dirs false (m_dirs d)).
      cbn [IsEmpty path_is_absolute path_tokens].
      change (is_path_separator (ch "/")) with true.
      cbn [IsEmpty app negb]. rewrite Ht. split; reflexivity. }
  destruct H as [Hd Hr]. repeat split; try assumption.
  change (GetPath_with false (SetPath fn (GetPath d)) = GetPath_with false d).
  unfold GetPath_with. now rewrite Hd, Hr.
Qed.

(** A directory given with a separator at its end, or with an empty
    component, is read back without them. *)
Lemma BuildPlotFileName_normalises_directory :
  GetPath (BuildPlotFileName (base_name (wxT "board")) (wxT "/out/") (wxT "%")
             (wxT "gbr")) = wxT "/out"
  /\ GetFullPath (BuildPlotFileName (base_name (wxT "board")) (wxT "/out/")
                    (wxT "%") (wxT "gbr")) = wxT "/out/board-_.gbr"
  /\ GetFullPath (BuildPlotFileName (base_name (wxT "board")) (wxT "plots//gerber")
                    [] (wxT "gbr")) = wxT "plots/gerber/board.gbr"
  /\ GetFullPath (BuildPlotFileName (base_name (wxT "board")) (wxT "/") []
                    (wxT "gbr")) = wxT "/board.gbr"
  /\ GetFullPath (BuildPlotFileName (base_name (wxT "board")) [] []
                    (wxT "gbr")) = wxT "board.gbr".
Proof. repeat split. Qed.

End FileName.

(** ** Plot controller *)

Section ControllerFacts.
Context {ids : LayerIds}.
Variable EnsureFileDirectoryExists : wxFileName -> wxString -> bool * wxFileName.
Variable StartPlotBoard :
  BOARD -> PCB_PLOT_PARAMS -> LAYER_NUM -> wxString -> wxString -> option PLOTTER.
Variable GetDefaultPlotExtension : PlotFormat -> wxString.
Variable ToLAYER_ID : LAYER_NUM -> LAYER_NUM.
Variable wxFileName_DirName : wxString -> wxFileName.
Variable wxFileName_of : wxString -> wxFileName.

Lemma ClosePlot_closed (s : session) : m_plotter (fst (ClosePlot s)) = None.
Proof.
  destruct s as [c trace]. unfold ClosePlot.
  destruct (m_plotter c) eqn:E; [ reflexivity | exact E ].
Qed.

Lemma ClosePlot_trace (c : PLOT_CONTROLLER) (trace : list plot_event) :
  snd (ClosePlot (c, trace)) = trace ++ closing_events c.
Proof.
  unfold ClosePlot, closing_events.
  destruct (m_plotter c); [ reflexivity | symmetry; apply app_nil_r ].
Qed.

Lemma ClosePlot_keeps (s : session) :
  m_board (fst (ClosePlot s)) = m_board (fst s)
  /\ m_plotOptions (fst (ClosePlot s)) = m_plotOptions (fst s)
  /\ m_plotLayer (fst (ClosePlot s)) = m_plotLayer (fst s).
Proof.
  destruct s as [c trace]. unfold ClosePlot.
  destruct (m_plotter c); repeat split.
Qed.

Ltac finish :=
  repeat match goal with
         | H : exists _, _ |- _ => destruct H
         | H : Some _ = Some _ |- _ => injection H as H; subst
         end;
  try discriminate; try congruence;
  rewrite <- ?app_assoc; try reflexivity; eauto.

(** C9. [OpenPlotfile] first closes the plotter it may hold, then asks for
    the directory and, if that succeeds, for a plotter.  When the
    directory step fails or no plotter is made it returns [false] and
    holds no plotter; when a plotter is made it returns [true] and holds
    it; in every case the result says whether a plotter is held. *)
Theorem OpenPlotfile_outcome (c : PLOT_CONTROLLER) (trace : list plot_event)
  (aSuffix : wxString) (aFormat : PlotFormat) (aSheetDesc : wxString) :
  let result :=
    OpenPlotfile EnsureFileDirectoryExists StartPlotBoard GetDefaultPlotExtension
      ToLAYER_ID wxFileName_DirName wxFileName_of
      (c, trace) aSuffix aFormat aSheetDesc in
  let c' := fst (snd result) in
  let trace' := snd (snd result) in
  let options := SetFormat (m_plotOptions c) aFormat in
  let dir := wxFileName_DirName (m_outputDirectory options) in
  let board := GetFileName (m_board c) in
  let ensured := EnsureFileDirectoryExists dir board in
  let file :=
    GetFullPath
      (plot_file_name GetDefaultPlotExtension wxFileName_of
         (set_plotOptions c options) (snd ensured) aSuffix aFormat) in
  let made :=
    StartPlotBoard (m_board c) options (ToLAYER_ID (m_plotLayer c)) file aSheetDesc in
  (fst result = true <-> exists p, m_plotter c' = Some p)
  /\ (fst ensured = false ->
      fst result = false /\ m_plotter c' = None
      /\ trace' = trace ++ closing_events c
                  ++ [EnsureDirectory dir board false])
  /\ (fst ensured = true -> made = None ->
      fst result = false /\ m_plotter c' = None
      /\ trace' = trace ++ closing_events c
                  ++ [EnsureDirectory dir board true; StartPlot file None])
  /\ (forall p, fst ensured = true -> made = Some p ->
      fst result = true /\ m_plotter c' = Some p
      /\ trace' = trace ++ closing_events c
                  ++ [EnsureDirectory dir board true; StartPlot file (Some p)]).
Proof.
  cbv zeta. unfold OpenPlotfile.
  set (c0 := set_plotOptions c (SetFormat (m_plotOptions c) aFormat)).
  pose proof (ClosePlot_closed (c0, trace)) as Hclosed.
  pose proof (ClosePlot_trace c0 trace) as Htrace.
  pose proof (ClosePlot_keeps (c0, trace)) as [Hb [Ho Hl]].
  destruct (ClosePlot (c0, trace)) as [c1 trace1]. cbn [fst snd] in *.
  change (closing_events c0) with (closing_events c) in Htrace.
  change (m_board c0) with (m_board c) in Hb.
  change (m_plotOptions c0) with (SetFormat (m_plotOptions c) aFormat) in Ho.
  change (m_plotLayer c0) with (m_plotLayer c) in Hl.
  rewrite Ho, Hb. cbn [SetFormat m_outputDirectory].
  destruct (EnsureFileDirectoryExists
              (wxFileName_DirName (m_outputDirectory (m_plotOptions c)))
              (GetFileName (m_board c))) as [ok dir'] eqn:Eens.
  cbn [fst snd].
  assert (Hname :
    plot_file_name GetDefaultPlotExtension wxFileName_of c1 dir' aSuffix aFormat
    = plot_file_name GetDefaultPlotExtension wxFileName_of c0 dir' aSuffix aFormat).
  { unfold plot_file_name. rewrite Hb, Ho, Hl. reflexivity. }
  destruct ok; cbn [fst snd set_plotFile set_plotter m_plotter m_board
                      m_plotOptions m_plotLayer m_plotFile is_open].
  - rewrite Hname, Hb, Ho, Hl, Htrace.
    destruct (StartPlotBoard _ _ _ _ _) as [p | ] eqn:Emade;
      repeat split; intros; finish.
  - unfold is_open. rewrite Hclosed, Htrace. repeat split; intros; finish.
Qed.

End ControllerFacts.

(** C9 run with a controller that holds a plotter: the directory step
    fails; the plotter factory fails; both succeed. *)
Lemma OpenPlotfile_outcome_witness :
  let open ok made :=
    @OpenPlotfile kicad_layer_ids (sample_ensure ok) (sample_start made)
      (fun _ => wxT "gbr") (fun l => l) sample_DirName sample_wxFileName
      (sample_controller (Some sample_plotter), []) (wxT "F.Cu")
      PLOT_FORMAT_GERBER [] in
  let closing := [EndPlot sample_plotter; Delete sample_plotter] in
  let dir := sample_DirName (wxT "/out") in
  let board := wxT "board.kicad_pcb" in
  let file := wxT "/out/board-F.Cu.gtl" in
  (fst (open false (Some fresh_plotter)) = false
   /\ m_plotter (fst (snd (open false (Some fresh_plotter)))) = None
   /\ snd (snd (open false (Some fresh_plotter)))
      = closing ++ [EnsureDirectory dir board false])
  /\ (fst (open true None) = false
      /\ m_plotter (fst (snd (open true None))) = None
      /\ snd (snd (open true None))
         = closing ++ [EnsureDirectory dir board true; StartPlot file None])
  /\ (fst (open true (Some fresh_plotter)) = true
      /\ m_plotter (fst (snd (open true (Some fresh_plotter)))) = Some fresh_plotter
      /\ snd (snd (open true (Some fresh_plotter)))
         = closing ++ [EnsureDirectory dir board true;
                       StartPlot file (Some fresh_plotter)]).
Proof.
  pose proof (fun ok made =>
    @OpenPlotfile_outcome kicad_layer_ids (sample_ensure ok) (sample_start made)
      (fun _ => wxT "gbr") (fun l => l) sample_DirName sample_wxFileName
      (sample_controller (Some sample_plotter)) [] (wxT "F.Cu")
      PLOT_FORMAT_GERBER []) as T.
  cbv zeta in *. split; [ | split ].
  - destruct (T false (Some fresh_plotter)) as (_ & Hdir & _ & _).
    apply Hdir. reflexivity.
  - destruct (T true None) as (_ & _ & Hnone & _).
    apply Hnone; reflexivity.
  - destruct (T true (Some fresh_plotter)) as (_ & _ & _ & Hmade).
    apply (Hmade fresh_plotter); reflexivity.
Defined.

(** * Further properties *)

(** ** What [%d] prints *)

Section Decimal.

Lemma string_of_uint_digits (d : Decimal.uint) :
  forallb is_decimal_char (wxT (NilEmpty.string_of_uint d)) = true.
Proof.
  induction d; cbn [NilEmpty.string_of_uint wxT list_ascii_of_string map forallb];
    try reflexivity; fold (wxT (NilEmpty.string_of_uint d));
    rewrite IHd; reflexivity.
Qed.

Lemma format_d_chars (v : Z) : forallb is_decimal_char (format_d v) = true.
Proof.
  unfold format_d, NilZero.string_of_int.
  destruct (Z.to_int v) as [d | d].
  - unfold NilZero.string_of_uint.
    destruct d; try reflexivity; apply string_of_uint_digits.
  - cbn [wxT list_ascii_of_string map forallb].
    fold (wxT (NilZero.string_of_uint d)).
    unfold NilZero.string_of_uint.
    destruct d; try reflexivity;
      cbn [andb is_decimal_char]; apply string_of_uint_digits.
Qed.

Lemma format_d_not_empty (v : Z) : IsEmpty (format_d v) = false.
Proof.
  unfold format_d, NilZero.string_of_int.
  destruct (Z.to_int v) as [d | d]; [ | reflexivity ].
  unfold NilZero.string_of_uint. destruct d; reflexivity.
Qed.

Lemma decimal_char_facts (c : wxUniChar) :
  is_decimal_char c = true ->
  negb (c =? ch "%") = true /\ plain_char c = true.
Proof.
  unfold is_decimal_char, plain_char, is_forbidden, wxSafeIsspace.
  intros H. apply orb_true_iff in H.
  assert (Hc : c = 45 \/ 48 <= c <= 57).
  { destruct H as [H | H]; [ left; apply Z.eqb_eq in H; exact H | right ].
    apply andb_prop in H. destruct H as [H1 H2].
    apply Z.leb_le in H1, H2. cbn in H1, H2. lia. }
  clear H. cbn [GetForbiddenChars_DOS wxT list_ascii_of_string map app existsb].
  change (ch "%") with 37. change (ch ".") with 46.
  repeat match goal with
         | |- context [ (c =? ?k) ] => destruct (Z.eqb_spec c k); [ cbn in *; lia | ]
         end.
  destruct (Z.leb_spec 9 c), (Z.leb_spec c 13); cbn; try lia; auto.
Qed.

Lemma forallb_impl (f g : wxUniChar -> bool) (s : wxString) :
  (forall c, f c = true -> g c = true) ->
  forallb f s = true -> forallb g s = true.
Proof.
  intros Hfg H. rewrite forallb_forall in *. auto.
Qed.

Lemma format_d_no_percent (v : Z) : no_percent (format_d v) = true.
Proof.
  apply (forallb_impl is_decimal_char); [ | apply format_d_chars ].
  intros c Hc. now apply decimal_char_facts.
Qed.

Lemma format_d_plain (v : Z) : forallb plain_char (format_d v) = true.
Proof.
  apply (forallb_impl is_decimal_char); [ | apply format_d_chars ].
  intros c Hc. now apply decimal_char_facts.
Qed.

End Decimal.

(** ** More on the layer functions *)

Section LayerMore.
Context {ids : LayerIds}.

Ltac layer_facts H :=
  unfold layer_ids_ok, named_technical_layers in H;
  let Hd := fresh "Hd" in
  let Hn := fresh "Hn" in
  apply andb_prop in H; destruct H as [H Hn];
  apply andb_prop in H; destruct H as [H ?];
  apply andb_prop in H; destruct H as [Hd ?];
  apply forallb_Forall_false in Hn;
  repeat (apply all_distinct_cons in Hd;
          let Hf := fresh "Hf" in destruct Hd as [Hf Hd]);
  clear Hd;
  repeat match goal with
         | H' : Forall _ (_ :: _) |- _ =>
             apply Forall_cons_iff in H'; destruct H' as [? H']
         | H' : Forall _ [] |- _ => clear H'
         end.

Ltac decide_eqb :=
  repeat match goal with
         | |- context [ (?a =? ?b) ] =>
             first
               [ rewrite (Z.eqb_refl a)
               | match goal with
                 | H : a <> b |- _ => rewrite (proj2 (Z.eqb_neq a b) H)
                 | H : b <> a |- _ =>
                     rewrite (proj2 (Z.eqb_neq a b) (not_eq_sym H))
                 end ]
         end.

Ltac open_not_in H :=
  cbn [In] in H;
  repeat match goal with
         | H' : ~ (_ \/ _) |- _ => apply Decidable.not_or in H'; destruct H'
         end.

(** X1.  The technical layers [GetGerberProtelExtension] names get their own
    extension each, and every other layer that is not copper gets [gbr]. *)
Theorem GetGerberProtelExtension_technical :
  layer_ids_ok = true ->
  map GetGerberProtelExtension
    [ B_Adhes; F_Adhes; B_Paste; F_Paste; B_SilkS; F_SilkS; B_Mask; F_Mask;
      Edge_Cuts ]
  = map wxT [ "gba"; "gta"; "gbp"; "gtp"; "gbo"; "gto"; "gbs"; "gts"; "gm1" ]%string
  /\ (forall l,
         IsCopperLayer l = false ->
         ~ In l [ B_Adhes; F_Adhes; B_Paste; F_Paste; B_SilkS; F_SilkS; B_Mask;
                  F_Mask; Edge_Cuts ] ->
         GetGerberProtelExtension l = wxT "gbr").
Proof.
  intros Hok. layer_facts Hok. unfold GetGerberProtelExtension. split.
  - cbn [map].
    repeat match goal with
           | H : IsCopperLayer _ = false |- _ => rewrite H; clear H
           end.
    decide_eqb. reflexivity.
  - intros l Hcu Hin. rewrite Hcu. open_not_in Hin. decide_eqb. reflexivity.
Qed.

Lemma GetGerberProtelExtension_ok (l : LAYER_NUM) :
  extension_ok (GetGerberProtelExtension l) = true.
Proof.
  unfold GetGerberProtelExtension.
  repeat match goal with
         | |- extension_ok (if ?b then _ else _) = true => destruct b
         end;
    try reflexivity.
  change (wxT "g" ++ format_d (Int.add l 1))
    with (ch "g" :: format_d (Int.add l 1)).
  cbn [extension_ok forallb]. rewrite format_d_plain. reflexivity.
Qed.

(** X2.  Whatever the layer, the extension is not empty, begins with [g] and is
    made of characters a file name takes as they are: none that
    [BuildPlotFileName] replaces in a suffix, no blank and no dot. *)
Theorem GetGerberProtelExtension_plain (l : LAYER_NUM) :
  exists rest,
    GetGerberProtelExtension l = ch "g" :: rest
    /\ forallb plain_char (GetGerberProtelExtension l) = true.
Proof.
  pose proof (GetGerberProtelExtension_ok l) as H. unfold extension_ok in H.
  destruct (GetGerberProtelExtension l) as [ | c rest ]; [ discriminate | ].
  apply andb_prop in H. destruct H as [Hg Hp]. apply Z.eqb_eq in Hg. subst c.
  exists rest. split; [ reflexivity | exact Hp ].
Qed.

Lemma FileFunction_attrib_ok (count : Z) (l : LAYER_NUM) :
  payload_ok (FileFunction_attrib count l) = true.
Proof.
  unfold FileFunction_attrib.
  repeat match goal with
         | |- payload_ok (if ?b then _ else _) = true =>
             destruct b; [ try reflexivity | ]
         end;
    try reflexivity.
  all: unfold payload_ok; apply andb_true_intro; split; [ reflexivity | ].
  all: unfold no_percent; rewrite !forallb_app.
  all: rewrite (format_d_no_percent _ : forallb _ _ = true); reflexivity.
Qed.

(** X3.  The value of the file function line is never empty and holds no [%]:
    the two delimiters are the only percent signs of the line. *)
Theorem GetGerberFileFunctionAttribute_payload (count : Z) (l : LAYER_NUM) :
  exists value,
    GetGerberFileFunctionAttribute count l
    = wxT "%TF.FileFunction," ++ value ++ wxT "*%"
    /\ IsEmpty value = false /\ no_percent value = true.
Proof.
  exists (FileFunction_attrib count l). split; [ reflexivity | ].
  pose proof (FileFunction_attrib_ok count l) as H. unfold payload_ok in H.
  apply andb_prop in H. destruct H as [H1 H2].
  apply negb_true_iff in H1. now split.
Qed.

End LayerMore.

(** ** The GUID as an encoding *)

Section GuidMore.

Lemma wx_eqb_eq (a b : wxString) : wx_eqb a b = true -> a = b.
Proof.
  revert b. induction a as [ | c a IH ]; intros [ | d b ] H;
    try discriminate; [ reflexivity | ].
  cbn in H. apply andb_prop in H. destruct H as [Hc H].
  apply Z.eqb_eq in Hc. subst d. f_equal. now apply IH.
Qed.

Lemma format_x_byte_digits (v : Z) :
  0 <= v < 256 -> format_x 2 v = [hex_digit (v / 16); hex_digit (v mod 16)].
Proof.
  intros Hv. apply wx_eqb_eq. revert v Hv.
  apply (checked_below
           (fun v => wx_eqb (format_x 2 v)
                       [hex_digit (v / 16); hex_digit (v mod 16)]) 256).
  vm_compute. reflexivity.
Qed.

Lemma format_x_three_digits (v : Z) :
  0 <= v < 4096 ->
  format_x 3 v
  = [hex_digit (v / 256); hex_digit (v / 16 mod 16); hex_digit (v mod 16)].
Proof.
  intros Hv. apply wx_eqb_eq. revert v Hv.
  apply (checked_below
           (fun v => wx_eqb (format_x 3 v)
                       [hex_digit (v / 256); hex_digit (v / 16 mod 16);
                        hex_digit (v mod 16)]) 4096).
  vm_compute. reflexivity.
Qed.

Lemma byte_read_back (v : Z) :
  0 <= v < 256 ->
  16 * hex_value (hex_digit (v / 16)) + hex_value (hex_digit (v mod 16)) = v.
Proof.
  intros Hv. apply Z.eqb_eq. revert v Hv.
  apply (checked_below
           (fun v => 16 * hex_value (hex_digit (v / 16))
                     + hex_value (hex_digit (v mod 16)) =? v) 256).
  vm_compute. reflexivity.
Qed.

Lemma hex_digit_lower_hex (v : Z) :
  0 <= v < 256 ->
  is_lower_hex (hex_digit (v / 16)) && is_lower_hex (hex_digit (v mod 16)) = true.
Proof.
  revert v.
  apply (checked_below
           (fun v => is_lower_hex (hex_digit (v / 16))
                     && is_lower_hex (hex_digit (v mod 16))) 256).
  vm_compute. reflexivity.
Qed.

(** The third group: the low byte of one character and the high nibble of
    the next. *)
Lemma version_field_nibbles (a b : Z) :
  let cc := Z.land (Z.shiftl a 4) 0xFF0 + Z.land (Z.shiftr b 4) 0x0F in
  cc / 256 = Z.land a 0xFF / 16
  /\ cc / 16 mod 16 = Z.land a 0xFF mod 16
  /\ cc mod 16 = Z.land b 0xFF / 16.
Proof.
  cbv zeta.
  change 0xFF0 with (Z.shiftl (Z.ones 8) 4). rewrite <- Z.shiftl_land.
  change 0x0F with (Z.ones 4). change 0xFF with (Z.ones 8).
  rewrite !Z.land_ones, Z.shiftl_mul_pow2, Z.shiftr_div_pow2 by lia.
  change (2 ^ 8) with 256. change (2 ^ 4) with 16.
  pose proof (Z.mod_pos_bound a 256 ltac:(lia)).
  pose proof (Z.mod_pos_bound b 256 ltac:(lia)).
  assert (Hb : b / 16 mod 16 = b mod 256 / 16).
  { change 256 with (16 * 16). rewrite Z.rem_mul_r by lia.
    pose proof (Z.mod_pos_bound b 16 ltac:(lia)).
    rewrite (Z.mul_comm 16), Z.div_add by lia.
    rewrite (Z.div_small (b mod 16)) by lia. lia. }
  rewrite Hb.
  set (x := a mod 256) in *. set (y := b mod 256) in *.
  assert (0 <= y / 16 < 16) by (split; [ apply Z.div_pos | apply Z.div_lt_upper_bound ]; lia).
  repeat split.
  - replace (x * 16 + y / 16) with (y / 16 + x * 16) by lia.
    change 256 with (16 * 16). rewrite <- Z.div_div by lia.
    rewrite Z.div_add by lia. rewrite (Z.div_small (y / 16)) by lia. reflexivity.
  - replace (x * 16 + y / 16) with (y / 16 + x * 16) by lia.
    rewrite Z.div_add by lia. rewrite (Z.div_small (y / 16)) by lia. reflexivity.
  - replace (x * 16 + y / 16) with (y / 16 + x * 16) by lia.
    rewrite Z.mod_add by lia. apply Z.mod_small. lia.
Qed.

(** The fourth group: the low nibble of that character and the low byte of
    the one after. *)
Lemma variant_field_nibbles (a b : Z) :
  let cc := Z.shiftl (Z.land a 0x0F) 8 + Z.land b 0xFF in
  cc / 256 = Z.land a 0xFF mod 16
  /\ cc / 16 mod 16 = Z.land b 0xFF / 16
  /\ cc mod 16 = Z.land b 0xFF mod 16.
Proof.
  cbv zeta.
  change 0x0F with (Z.ones 4). change 0xFF with (Z.ones 8).
  rewrite !Z.land_ones, Z.shiftl_mul_pow2 by lia.
  change (2 ^ 8) with 256. change (2 ^ 4) with 16.
  pose proof (Z.mod_pos_bound a 16 ltac:(lia)).
  pose proof (Z.mod_pos_bound b 256 ltac:(lia)).
  assert (Ha : a mod 256 mod 16 = a mod 16).
  { change 256 with (16 * 16). rewrite Z.rem_mul_r by lia.
    rewrite (Z.mul_comm 16), Z.mod_add by lia. apply Z.mod_mod. lia. }
  rewrite Ha.
  set (x := a mod 16) in *. set (y := b mod 256) in *.
  assert (0 <= y / 16 < 16) by (split; [ apply Z.div_pos | apply Z.div_lt_upper_bound ]; lia).
  repeat split.
  - replace (x * 256 + y) with (y + x * 256) by lia.
    rewrite Z.div_add by lia. rewrite (Z.div_small y) by lia. reflexivity.
  - replace (x * 256 + y) with (y + (x * 16) * 16) by lia.
    rewrite Z.div_add by lia.
    rewrite Z.mod_add by lia. apply Z.mod_small. lia.
  - replace (x * 256 + y) with (y + (x * 16) * 16) by lia.
    apply Z.mod_add. lia.
Qed.

Lemma firstn_as_nth (n : nat) (l : wxString) :
  (n <= List.length l)%nat -> firstn n l = map (fun k => nth k l 0) (seq 0 n).
Proof.
  revert l. induction n as [ | n IH ]; intros l Hl; [ reflexivity | ].
  destruct l as [ | c l ]; [ cbn in Hl; lia | ].
  cbn [firstn seq map nth]. f_equal.
  rewrite <- seq_shift, map_map. apply IH. cbn in Hl. lia.
Qed.

Lemma right_pad16_length (name : wxString) :
  (16 <= List.length (right_pad16 name))%nat.
Proof. unfold right_pad16. rewrite length_app, repeat_length. lia. Qed.

End GuidMore.

Section GuidEncoding.

Lemma low_bytes_explicit (name : wxString) :
  low_bytes name
  = map (fun k => Z.land (nth k (right_pad16 name) 0) 0xFF) (seq 0 15).
Proof.
  unfold low_bytes.
  rewrite (firstn_as_nth 15) by (pose proof (right_pad16_length name); lia).
  now rewrite map_map.
Qed.

Lemma low_bytes_are_bytes (name : wxString) : Forall is_byte (low_bytes name).
Proof.
  unfold low_bytes. apply Forall_map, Forall_forall. intros c _. apply low_byte.
Qed.

Lemma low_bytes_length (name : wxString) : List.length (low_bytes name) = 15%nat.
Proof.
  unfold low_bytes. rewrite length_map, length_firstn.
  pose proof (right_pad16_length name). lia.
Qed.

Lemma hex_of_bytes_length (bytes : list Z) :
  Forall is_byte bytes ->
  List.length (hex_of_bytes bytes) = (2 * List.length bytes)%nat.
Proof.
  induction 1 as [ | b bytes Hb _ IH ]; [ reflexivity | ].
  unfold hex_of_bytes in *. cbn [flat_map].
  rewrite format_x_byte_digits by exact Hb. cbn [app List.length]. lia.
Qed.

Lemma hex_of_bytes_read_back (bytes : list Z) :
  Forall is_byte bytes -> bytes_of_hex (hex_of_bytes bytes) = bytes.
Proof.
  induction 1 as [ | b bytes Hb _ IH ]; [ reflexivity | ].
  unfold hex_of_bytes in *. cbn [flat_map].
  rewrite format_x_byte_digits by exact Hb. cbn [app bytes_of_hex].
  now rewrite IH, byte_read_back.
Qed.

Lemma hex_of_bytes_lower_hex (bytes : list Z) :
  Forall is_byte bytes -> forallb is_lower_hex (hex_of_bytes bytes) = true.
Proof.
  induction 1 as [ | b bytes Hb _ IH ]; [ reflexivity | ].
  unfold hex_of_bytes in *. cbn [flat_map].
  rewrite format_x_byte_digits by exact Hb. cbn [app forallb].
  rewrite IH, andb_true_r. now apply hex_digit_lower_hex.
Qed.

Lemma guid_layout_read_back (h : wxString) :
  List.length h = 30%nat -> guid_digits (guid_layout h) = h.
Proof.
  intros H.
  do 30 (destruct h as [ | ? h ]; [ discriminate | ]).
  destruct h; [ reflexivity | discriminate ].
Qed.

Lemma guid_is_layout (name : wxString) :
  makeProjectGUIDfromString name = guid_layout (hex_of_bytes (low_bytes name)).
Proof.
  rewrite low_bytes_explicit. cbn [seq map]. unfold hex_of_bytes. cbn [flat_map].
  unfold makeProjectGUIDfromString. cbn [emit_bytes].
  rewrite !padded_name_chars by lia. unfold char_at.
  rewrite !format_x_byte_digits by apply low_byte.
  rewrite format_x_three_digits by apply version_field_bound.
  rewrite format_x_three_digits by apply variant_field_bound.
  destruct (version_field_nibbles (nth 6 (right_pad16 name) 0)
              (nth 7 (right_pad16 name) 0)) as (E1 & E2 & E3).
  destruct (variant_field_nibbles (nth 7 (right_pad16 name) 0)
              (nth 8 (right_pad16 name) 0)) as (E4 & E5 & E6).
  cbv zeta in *. rewrite E1, E2, E3, E4, E5, E6. reflexivity.
Qed.

Lemma guid_read_back (name : wxString) :
  guid_bytes (makeProjectGUIDfromString name) = low_bytes name.
Proof.
  rewrite guid_is_layout.
  pose proof (low_bytes_are_bytes name) as Hb.
  pose proof (hex_of_bytes_length _ Hb) as Hl.
  rewrite low_bytes_length in Hl.
  unfold guid_bytes. rewrite guid_layout_read_back by exact Hl.
  now apply hex_of_bytes_read_back.
Qed.

(** X7.  The GUID is the low bytes of the first 15 characters of the padded
    name, printed as 30 hexadecimal digits and cut 8-4-3-3-12 with the
    version digit [1] and the tag digit [9] in front of the third and the
    fourth group. *)
Theorem makeProjectGUIDfromString_layout (name : wxString) :
  makeProjectGUIDfromString name = guid_layout (hex_of_bytes (low_bytes name)).
Proof. exact (guid_is_layout name). Qed.

(** X8.  Reading the digits of a GUID back gives the 15 low bytes it was made
    from, and a GUID always has 36 characters. *)
Theorem guid_bytes_of_GUID (name : wxString) :
  guid_bytes (makeProjectGUIDfromString name) = low_bytes name
  /\ List.length (makeProjectGUIDfromString name) = 36%nat.
Proof.
  split; [ apply guid_read_back | ].
  rewrite guid_is_layout.
  pose proof (hex_of_bytes_length _ (low_bytes_are_bytes name)) as Hl.
  rewrite low_bytes_length in Hl.
  revert Hl. generalize (hex_of_bytes (low_bytes name)). intros h Hl.
  do 30 (destruct h as [ | ? h ]; [ discriminate | ]).
  destruct h; [ reflexivity | discriminate ].
Qed.

(** X9.  Two names get the same GUID exactly when their padded names have the
    same low bytes in the first 15 characters: nothing else of a name
    reaches the GUID, and all of that does. *)
Theorem makeProjectGUIDfromString_collide (a b : wxString) :
  makeProjectGUIDfromString a = makeProjectGUIDfromString b
  <-> low_bytes a = low_bytes b.
Proof.
  split; intros H.
  - rewrite <- (guid_read_back a), <- (guid_read_back b), H. reflexivity.
  - rewrite !guid_is_layout, H. reflexivity.
Qed.

Lemma guid_no_comma (name : wxString) : commas (makeProjectGUIDfromString name) = 0%nat.
Proof.
  rewrite guid_is_layout.
  pose proof (low_bytes_are_bytes name) as Hb.
  pose proof (hex_of_bytes_length _ Hb) as Hl.
  pose proof (hex_of_bytes_lower_hex _ Hb) as Hh.
  rewrite low_bytes_length in Hl.
  revert Hl Hh. generalize (hex_of_bytes (low_bytes name)). intros h Hl Hh.
  do 30 (destruct h as [ | ? h ]; [ discriminate | ]).
  destruct h; [ | discriminate ].
  unfold commas. apply count_occ_not_In.
  cbn [forallb] in Hh.
  repeat match goal with
         | H : _ && _ = true |- _ => apply andb_prop in H; destruct H
         end.
  cbn. unfold is_lower_hex in *.
  intuition (subst; discriminate).
Qed.

End GuidEncoding.

(** ** The compatibility transform and the header lines *)

Section CompatMore.

Lemma Replace_drop (s : wxString) (old : wxUniChar) :
  Replace s old [] = filter (fun c => negb (c =? old)) s.
Proof.
  unfold Replace. induction s as [ | c s IH ]; [ reflexivity | ].
  cbn [flat_map filter]. rewrite IH. now destruct (c =? old).
Qed.

Lemma filter_keeps_all (f : wxUniChar -> bool) (s : wxString) :
  forallb f s = true -> filter f s = s.
Proof.
  induction s as [ | c s IH ]; [ reflexivity | ].
  cbn [forallb filter]. intros H. apply andb_prop in H. destruct H as [Hc H].
  rewrite Hc, IH by exact H. reflexivity.
Qed.

Lemma filter_passes (f : wxUniChar -> bool) (s : wxString) :
  forallb f (filter f s) = true.
Proof.
  apply forallb_forall. intros c Hc. apply filter_In in Hc. tauto.
Qed.

Lemma compat_on (aText : wxString) :
  makeStringCompatX1 aText true = wxT "G04 #@! " ++ filter not_percent aText.
Proof. unfold makeStringCompatX1, Prepend. now rewrite Replace_drop. Qed.

Lemma compat_on_no_percent (aText : wxString) :
  no_percent (makeStringCompatX1 aText true) = true.
Proof.
  rewrite compat_on. unfold no_percent. rewrite forallb_app.
  rewrite (filter_passes not_percent). reflexivity.
Qed.

(** X5.  In compatibility mode the line is the comment marker followed by the
    text without its percent signs, the other characters kept in their
    order; no percent sign is left. *)
Theorem makeStringCompatX1_on (aText : wxString) :
  makeStringCompatX1 aText true = wxT "G04 #@! " ++ filter not_percent aText
  /\ no_percent (makeStringCompatX1 aText true) = true.
Proof. split; [ apply compat_on | apply compat_on_no_percent ]. Qed.

(** X6.  The transform is not idempotent: a second pass puts a second marker in
    front of the line, so a line transformed twice is never a line
    transformed once. *)
Theorem makeStringCompatX1_twice (aText : wxString) :
  makeStringCompatX1 (makeStringCompatX1 aText true) true
  = wxT "G04 #@! " ++ makeStringCompatX1 aText true
  /\ makeStringCompatX1 (makeStringCompatX1 aText true) true
     <> makeStringCompatX1 aText true.
Proof.
  assert (E : makeStringCompatX1 (makeStringCompatX1 aText true) true
              = wxT "G04 #@! " ++ makeStringCompatX1 aText true).
  { rewrite (compat_on (makeStringCompatX1 aText true)). f_equal.
    apply filter_keeps_all. apply compat_on_no_percent. }
  split; [ exact E | ].
  rewrite E. intros H. apply (f_equal (@List.length _)) in H.
  rewrite length_app in H. cbn in H. lia.
Qed.

End CompatMore.

Section HeaderMore.
Context {ids : LayerIds}.
Variable GetBuildVersion : wxString.
Variable GetTimeNow : wxDateTime.
Variable wxFileName_of : wxString -> wxFileName.

Lemma AddGerberX2Header_texts (p : PLOTTER) (b : BOARD) (mode : bool) :
  exists t1 t2 t3 t4,
    m_headerExtraLines
      (AddGerberX2Header GetBuildVersion GetTimeNow wxFileName_of p b mode)
    = m_headerExtraLines p
      ++ map (fun t => makeStringCompatX1 t mode) [t1; t2; t3; t4]
    /\ m_backend
         (AddGerberX2Header GetBuildVersion GetTimeNow wxFileName_of p b mode)
       = m_backend p.
Proof.
  unfold AddGerberX2Header.
  destruct (Nat.ltb_spec 3 (Len (Format_z GetTimeNow)));
    cbn [AddLineToHeader m_headerExtraLines m_backend map];
    rewrite <- !app_assoc; cbn [app];
    do 4 eexists; split; reflexivity.
Qed.

(** X10.  The header call keeps the lines the plotter already has, adds exactly
    four after them and touches nothing else of the plotter. *)
Theorem AddGerberX2Header_appends (p : PLOTTER) (b : BOARD) (mode : bool) :
  let p' := AddGerberX2Header GetBuildVersion GetTimeNow wxFileName_of p b mode in
  m_headerExtraLines p' = m_headerExtraLines p ++ emitted p p'
  /\ List.length (emitted p p') = 4%nat
  /\ m_backend p' = m_backend p.
Proof.
  cbv zeta. destruct (AddGerberX2Header_texts p b mode)
    as (t1 & t2 & t3 & t4 & E & Eb).
  rewrite (emitted_app _ _ _ E). rewrite E. repeat split. exact Eb.
Qed.

Lemma commas_app (a b : wxString) : commas (a ++ b) = (commas a + commas b)%nat.
Proof. apply count_occ_app. Qed.

Lemma commas_filter (s : wxString) : commas (filter not_percent s) = commas s.
Proof.
  unfold commas. induction s as [ | c s IH ]; [ reflexivity | ].
  cbn [filter]. unfold not_percent at 1.
  destruct (Z.eqb_spec c (ch "%")) as [E | E]; cbn [negb].
  - rewrite IH, E. reflexivity.
  - cbn [count_occ]. rewrite IH. reflexivity.
Qed.

Lemma commas_compat (t : wxString) (mode : bool) :
  commas (makeStringCompatX1 t mode) = commas t.
Proof.
  destruct mode; [ | reflexivity ].
  rewrite compat_on, commas_app, commas_filter. reflexivity.
Qed.

Lemma commas_ToAscii_Replace (s : wxString) :
  commas (ToAscii (Replace s (ch ",") (wxT "_"))) = 0%nat.
Proof.
  change (wxT "_") with [ch "_"]. rewrite Replace_by_one.
  unfold ToAscii. rewrite map_map. unfold commas.
  apply count_occ_not_In. intros Hin. apply in_map_iff in Hin.
  destruct Hin as [c [Hc _]].
  destruct (Z.eqb_spec c (ch ",")) as [E | Hne]; cbn in Hc; [ discriminate | ].
  destruct ((0 <=? c) && (c <=? 127)); [ apply Hne; exact Hc | discriminate ].
Qed.

(** X12.  The project line has exactly three commas, the ones between its four
    fields, whatever the board file is called and whatever the title block
    gives as revision. *)
Theorem AddGerberX2Header_ProjectId_commas (p : PLOTTER) (b : BOARD) (mode : bool) :
  exists line,
    nth_error
      (emitted p (AddGerberX2Header GetBuildVersion GetTimeNow wxFileName_of p b mode)) 2
    = Some line
    /\ commas line = 3%nat.
Proof.
  destruct (AddGerberX2Header_lines GetBuildVersion GetTimeNow wxFileName_of p b mode)
    as [l2 [E _]].
  rewrite E. cbn [nth_error]. eexists. split; [ reflexivity | ].
  cbv zeta. rewrite commas_compat, !commas_app, guid_no_comma, commas_ToAscii_Replace.
  destruct (IsEmpty (Replace (GetRevision b) (ch ",") (wxT "_")));
    [ reflexivity | ].
  rewrite commas_ToAscii_Replace. reflexivity.
Qed.

Lemma polarity_text (l : LAYER_NUM) :
  layer_ids_ok = true ->
  GetGerberFilePolarityAttribute l
  = if is_adhesive l || is_silkscreen l || is_paste l || IsCopperLayer l
    then Positive
    else if is_mask l then Negative else [].
Proof.
  intros Hok. pose proof (mask_is_nothing_else l Hok) as Hmask.
  unfold GetGerberFilePolarityAttribute. rewrite FilePolarity_polarity_eq.
  destruct (is_adhesive l || is_silkscreen l || is_paste l),
    (is_mask l), (IsCopperLayer l); cbn in *;
    try (destruct (Hmask eq_refl); discriminate); reflexivity.
Qed.

(** X13.  The lines of a layer: the four header lines, the file function line
    and then one polarity line, positive on adhesive, silkscreen, paste and
    copper layers, negative on mask layers, and none on any other layer;
    all of them through the compatibility transform. *)
Theorem AddGerberX2Attribute_lines (p : PLOTTER) (b : BOARD) (l : LAYER_NUM)
  (mode : bool) :
  layer_ids_ok = true ->
  emitted p
    (AddGerberX2Attribute GetBuildVersion GetTimeNow wxFileName_of p b l mode)
  = emitted p (AddGerberX2Header GetBuildVersion GetTimeNow wxFileName_of p b mode)
    ++ makeStringCompatX1
         (GetGerberFileFunctionAttribute (GetCopperLayerCount b) l) mode
    :: (if is_adhesive l || is_silkscreen l || is_paste l || IsCopperLayer l
        then [makeStringCompatX1 Positive mode]
        else if is_mask l then [makeStringCompatX1 Negative mode] else []).
Proof.
  intros Hok. unfold AddGerberX2Attribute.
  destruct (AddGerberX2Header_texts p b mode) as (t1 & t2 & t3 & t4 & E & _).
  rewrite (emitted_app _ _ _ E).
  rewrite (polarity_text l Hok).
  destruct (is_adhesive l || is_silkscreen l || is_paste l || IsCopperLayer l);
    [ | destruct (is_mask l) ];
    cbn [IsEmpty Positive Negative wxT list_ascii_of_string map negb];
    apply emitted_app; cbn [AddLineToHeader m_headerExtraLines];
    rewrite E, <- !app_assoc; reflexivity.
Qed.

(** X14.  In compatibility mode every line written for a layer is a [G04]
    comment: it begins with the marker and holds no percent sign. *)
Theorem AddGerberX2Attribute_compat_lines (p : PLOTTER) (b : BOARD)
  (l : LAYER_NUM) :
  Forall (fun line => starts_with (wxT "G04 #@! ") line = true
                      /\ no_percent line = true)
    (emitted p
       (AddGerberX2Attribute GetBuildVersion GetTimeNow wxFileName_of p b l true)).
Proof.
  assert (Hline : forall t, starts_with (wxT "G04 #@! ") (makeStringCompatX1 t true) = true
                            /\ no_percent (makeStringCompatX1 t true) = true).
  { intros t. split; [ | apply compat_on_no_percent ].
    rewrite compat_on. reflexivity. }
  unfold AddGerberX2Attribute.
  destruct (AddGerberX2Header_texts p b true) as (t1 & t2 & t3 & t4 & E & _).
  destruct (IsEmpty (GetGerberFilePolarityAttribute l)); cbn [negb].
  - erewrite emitted_app
      by (cbn [AddLineToHeader m_headerExtraLines]; rewrite E, <- !app_assoc; reflexivity).
    cbn [map app]. repeat constructor; apply Hline.
  - erewrite emitted_app
      by (cbn [AddLineToHeader m_headerExtraLines]; rewrite E, <- !app_assoc; reflexivity).
    cbn [map app]. repeat constructor; apply Hline.
Qed.

End HeaderMore.

Section FunctionLineCompat.
Context {ids : LayerIds}.

(** X4.  In compatibility mode the file function line loses its two delimiters
    and nothing else: it is the marker, [TF.FileFunction,], the value and
    the closing star. *)
Theorem GetGerberFileFunctionAttribute_compat (count : Z) (l : LAYER_NUM) :
  exists value,
    GetGerberFileFunctionAttribute count l
    = wxT "%TF.FileFunction," ++ value ++ wxT "*%"
    /\ makeStringCompatX1 (GetGerberFileFunctionAttribute count l) true
       = wxT "G04 #@! TF.FileFunction," ++ value ++ wxT "*".
Proof.
  exists (FileFunction_attrib count l). split; [ reflexivity | ].
  pose proof (FileFunction_attrib_ok count l) as H. unfold payload_ok in H.
  apply andb_prop in H. destruct H as [_ H].
  rewrite compat_on. unfold GetGerberFileFunctionAttribute.
  rewrite !filter_app, (filter_keeps_all not_percent _ H). reflexivity.
Qed.

End FunctionLineCompat.

(** ** More on the plot file name *)

Section FileNameMore.

Lemma forbidden_not_blank (c : wxUniChar) :
  is_forbidden c = true -> wxSafeIsspace c = false.
Proof.
  unfold is_forbidden. intros H. apply existsb_exists in H.
  destruct H as [k [Hin Hk]]. apply Z.eqb_eq in Hk. subst k.
  cbn in Hin. intuition (subst; reflexivity).
Qed.

Lemma sanitize_char_blank (c : wxUniChar) :
  wxSafeIsspace (if is_forbidden c then ch "_" else c) = wxSafeIsspace c.
Proof.
  destruct (is_forbidden c) eqn:E; [ | reflexivity ].
  now rewrite (forbidden_not_blank c E).
Qed.

Lemma sanitize_allowed (s : wxString) : forallb allowed (sanitize s) = true.
Proof.
  unfold sanitize. apply forallb_forall. intros c Hc.
  apply in_map_iff in Hc. destruct Hc as [d [Hd _]]. subst c.
  destruct (is_forbidden d) eqn:E; [ reflexivity | ].
  unfold allowed. now rewrite E.
Qed.

Lemma sanitize_keeps (s : wxString) : forallb allowed s = true -> sanitize s = s.
Proof.
  intros H. unfold sanitize. rewrite <- (map_id s) at 2.
  apply map_ext_in. intros c Hc. rewrite forallb_forall in H.
  specialize (H c Hc). unfold allowed in H. apply negb_true_iff in H.
  now rewrite H.
Qed.

Lemma last_map (f : wxUniChar -> wxUniChar) (s : wxString) (d : wxUniChar) :
  s <> [] -> last (map f s) d = f (last s d).
Proof.
  induction s as [ | c s IH ]; [ congruence | ]. intros _.
  destruct s as [ | c' s ]; [ reflexivity | ].
  change (last (map f (c :: c' :: s)) d) with (last (map f (c' :: s)) d).
  change (last (c :: c' :: s) d) with (last (c' :: s) d).
  apply IH. discriminate.
Qed.

Lemma TrimLeft_keeps (s : wxString) :
  wxSafeIsspace (hd 0 s) = false -> TrimLeft s = s.
Proof.
  destruct s as [ | c s ]; [ reflexivity | ]. cbn [hd TrimLeft].
  intros H. now rewrite H.
Qed.

Lemma TrimLeft_blank (s : wxString) : blank s -> TrimLeft s = [].
Proof.
  induction 1 as [ | c s Hc _ IH ]; [ reflexivity | ].
  cbn [TrimLeft]. now rewrite Hc.
Qed.

Lemma hd_rev_last (s : wxString) (d : wxUniChar) : hd d (rev s) = last s d.
Proof. rewrite <- (rev_involutive s) at 2. symmetry. apply last_rev_hd. Qed.

Lemma built_name (fn : wxFileName) (dir suffix ext : wxString) :
  BuildPlotFileName fn dir suffix ext
  = let t := sanitize (Trim (Trim suffix true) false) in
    if IsEmpty t then SetExt (SetPath fn dir) ext
    else SetName (SetExt (SetPath fn dir) ext) (GetName fn ++ wxT "-" ++ t).
Proof.
  unfold BuildPlotFileName. rewrite sanitized_suffix. cbv zeta.
  destruct (sanitize (Trim (Trim suffix true) false)); reflexivity.
Qed.

(** X15.  What [BuildPlotFileName] appends to the name, if anything, is a dash
    and a text that is not empty, has no forbidden character and no [%]
    left, and neither begins nor ends with white space. *)
Theorem BuildPlotFileName_suffix_clean (fn : wxFileName)
  (dir suffix ext : wxString) :
  let r := BuildPlotFileName fn dir suffix ext in
  GetName r = GetName fn
  \/ exists t,
       GetName r = GetName fn ++ wxT "-" ++ t
       /\ t <> [] /\ forallb allowed t = true
       /\ wxSafeIsspace (hd 0 t) = false /\ wxSafeIsspace (last t 0) = false.
Proof.
  cbv zeta. rewrite built_name. cbv zeta.
  destruct (Trim_both suffix) as (pre & post & _ & _ & _ & Hends).
  set (T := Trim (Trim suffix true) false) in *.
  destruct (sanitize T) as [ | c t ] eqn:E; [ left; reflexivity | right ].
  exists (c :: t). cbn [IsEmpty GetName SetName m_name].
  split; [ reflexivity | ]. split; [ discriminate | ].
  rewrite <- E. split; [ apply sanitize_allowed | ].
  destruct Hends as [Hnil | [Hhd Hlast]]; [ rewrite Hnil in E; discriminate | ].
  assert (HT : T <> []) by (intros HT; rewrite HT in E; discriminate).
  unfold sanitize. split.
  - destruct T as [ | a T' ]; [ congruence | ]. cbn [map hd] in *.
    now rewrite sanitize_char_blank.
  - rewrite last_map by exact HT. now rewrite sanitize_char_blank.
Qed.

(** X16.  A suffix that is clean already, with no white space at its ends and no
    forbidden character, is appended as it is. *)
Theorem BuildPlotFileName_clean_suffix (fn : wxFileName)
  (dir suffix ext : wxString) :
  suffix <> [] ->
  wxSafeIsspace (hd 0 suffix) = false ->
  wxSafeIsspace (last suffix 0) = false ->
  forallb allowed suffix = true ->
  BuildPlotFileName fn dir suffix ext
  = SetName (SetExt (SetPath fn dir) ext) (GetName fn ++ wxT "-" ++ suffix).
Proof.
  intros Hne Hhd Hlast Hok. rewrite built_name. cbv zeta.
  assert (E : Trim (Trim suffix true) false = suffix).
  { unfold Trim. rewrite (TrimLeft_keeps (rev suffix)).
    - rewrite rev_involutive. now apply TrimLeft_keeps.
    - now rewrite hd_rev_last. }
  rewrite E, (sanitize_keeps suffix Hok).
  destruct suffix; [ congruence | reflexivity ].
Qed.

(** X17.  A suffix of white space only, the empty one included, leaves the name
    as it is: only directory and extension are set. *)
Theorem BuildPlotFileName_blank_suffix (fn : wxFileName)
  (dir suffix ext : wxString) :
  blank suffix ->
  BuildPlotFileName fn dir suffix ext = SetExt (SetPath fn dir) ext.
Proof.
  intros Hblank. rewrite built_name. cbv zeta.
  assert (E : Trim (Trim suffix true) false = []).
  { unfold Trim. rewrite (TrimLeft_blank (rev suffix)); [ reflexivity | ].
    now apply Forall_rev. }
  rewrite E. reflexivity.
Qed.

End FileNameMore.

(** ** More on the plot controller *)

Section ControllerMore.
Context {ids : LayerIds}.

(** [OpenPlotfile] evaluated: what it returns, the controller it leaves and
    the calls it makes. *)
Lemma OpenPlotfile_shape
  (ensure : wxFileName -> wxString -> bool * wxFileName)
  (start : BOARD -> PCB_PLOT_PARAMS -> LAYER_NUM -> wxString -> wxString
           -> option PLOTTER)
  (extension : PlotFormat -> wxString) (toLayer : LAYER_NUM -> LAYER_NUM)
  (dirName fileName : wxString -> wxFileName)
  (c : PLOT_CONTROLLER) (trace : list plot_event)
  (aSuffix : wxString) (aFormat : PlotFormat) (aSheetDesc : wxString) :
  let options := SetFormat (m_plotOptions c) aFormat in
  let dir := dirName (m_outputDirectory (m_plotOptions c)) in
  let board := GetFileName (m_board c) in
  let ok := fst (ensure dir board) in
  let file :=
    plot_file_name extension fileName (set_plotOptions c options)
      (snd (ensure dir board)) aSuffix aFormat in
  let made :=
    start (m_board c) options (toLayer (m_plotLayer c)) (GetFullPath file)
      aSheetDesc in
  let held := if ok then made else None in
  OpenPlotfile ensure start extension toLayer dirName fileName
    (c, trace) aSuffix aFormat aSheetDesc
  = (match held with Some _ => true | None => false end,
     ({| m_plotLayer := m_plotLayer c; m_plotOptions := options;
         m_plotter := held;
         m_plotFile := if ok then file else m_plotFile c;
         m_board := m_board c |},
      trace ++ closing_events c
      ++ EnsureDirectory dir board ok
         :: (if ok then [StartPlot (GetFullPath file) made] else []))).
Proof.
  cbv zeta. unfold OpenPlotfile, ClosePlot, closing_events, plot_file_name.
  destruct c as [layer options [p | ] file board];
    cbn -[BuildPlotFileName GetFullPath GetGerberProtelExtension SetFormat];
    destruct (ensure _ _) as [[ | ] dir'];
    cbn -[BuildPlotFileName GetFullPath GetGerberProtelExtension SetFormat];
    rewrite <- ?app_assoc, ?app_nil_r; reflexivity.
Qed.

Lemma made_count_app (a b : list plot_event) :
  made_count (a ++ b) = (made_count a + made_count b)%nat.
Proof. unfold made_count. now rewrite filter_app, length_app. Qed.

Lemma deleted_count_app (a b : list plot_event) :
  deleted_count (a ++ b) = (deleted_count a + deleted_count b)%nat.
Proof. unfold deleted_count. now rewrite filter_app, length_app. Qed.

Lemma closing_events_counts (c : PLOT_CONTROLLER) :
  made_count (closing_events c) = 0%nat
  /\ deleted_count (closing_events c) = held_count c.
Proof.
  unfold closing_events, held_count, is_open.
  destruct (m_plotter c); split; reflexivity.
Qed.

Lemma step_balanced (s t : session) :
  controller_step s t -> balanced s -> balanced t.
Proof.
  intros Hstep. unfold balanced.
  destruct Hstep as [ensure start extension toLayer dirName fileName [c trace]
                       aSuffix aFormat aSheetDesc
                    | [c trace] | plot toLayer [c trace] | setMode [c trace] b ];
    cbn [fst snd]; intros Hs.
  - rewrite OpenPlotfile_shape. cbn [fst snd].
    destruct (closing_events_counts c) as [Hm Hd].
    rewrite !made_count_app, !deleted_count_app, Hm, Hd.
    unfold held_count at 2, is_open. cbn [m_plotter].
    destruct (fst (ensure _ _)); [ destruct (start _ _ _ _ _) | ];
      cbn; lia.
  - pose proof (ClosePlot_trace c trace) as Ht.
    pose proof (ClosePlot_closed (c, trace)) as Hc.
    destruct (ClosePlot (c, trace)) as [c' trace']. cbn [fst snd] in *.
    subst trace'. destruct (closing_events_counts c) as [Hm Hd].
    rewrite made_count_app, deleted_count_app, Hm, Hd.
    unfold held_count at 2, is_open. rewrite Hc. lia.
  - unfold PlotLayer, held_count, is_open in *.
    destruct (m_plotter c) eqn:E; cbn [fst snd set_plotter m_plotter];
      rewrite ?E; exact Hs.
  - unfold SetColorMode, held_count, is_open in *.
    destruct (m_plotter c) eqn:E; cbn [fst snd set_plotter m_plotter];
      rewrite ?E; exact Hs.
Qed.

Lemma run_balanced (s t : session) :
  controller_run s t -> balanced s -> balanced t.
Proof.
  induction 1 as [ s | s t u _ IH Hstep ]; intros Hs; [ exact Hs | ].
  apply (step_balanced t u Hstep). now apply IH.
Qed.

(** X18.  A controller never loses a plotter.  Through any calls on a new
    controller, each with collaborators of its own, every plotter made so
    far has been deleted or is the one held; and once the controller is
    destroyed every plotter made has been deleted and none is held. *)
Theorem PLOT_CONTROLLER_no_leak (UNDEFINED_LAYER : LAYER_NUM)
  (default_options : PCB_PLOT_PARAMS) (aBoard : BOARD) (s : session) :
  controller_run (PLOT_CONTROLLER_new UNDEFINED_LAYER default_options aBoard, []) s ->
  made_count (snd s) = (deleted_count (snd s) + held_count (fst s))%nat
  /\ made_count (snd (PLOT_CONTROLLER_delete s))
     = deleted_count (snd (PLOT_CONTROLLER_delete s))
  /\ m_plotter (fst (PLOT_CONTROLLER_delete s)) = None.
Proof.
  intros Hrun.
  assert (Hs : balanced s) by (apply (run_balanced _ _ Hrun); reflexivity).
  split; [ exact Hs | ].
  unfold PLOT_CONTROLLER_delete.
  pose proof (step_balanced _ _ (step_ClosePlot s) Hs) as Hd.
  pose proof (ClosePlot_closed s) as Hc.
  unfold balanced, held_count, is_open in Hd. rewrite Hc in Hd.
  split; [ lia | exact Hc ].
Qed.

End ControllerMore.

Section ControllerCalls.
Context {ids : LayerIds}.

Lemma wx_eqb_refl (a : wxString) : wx_eqb a a = true.
Proof.
  induction a as [ | c a IH ]; [ reflexivity | ].
  cbn. now rewrite Z.eqb_refl, IH.
Qed.

Lemma PLOTTER_eqb_refl (p : PLOTTER) : PLOTTER_eqb p p = true.
Proof.
  unfold PLOTTER_eqb. rewrite Z.eqb_refl. cbn [andb].
  induction (m_headerExtraLines p) as [ | u lines IH ]; [ reflexivity | ].
  now rewrite wx_eqb_refl, IH.
Qed.

Lemma well_paired_app_both (a b : list plot_event) :
  (well_paired a = true -> well_paired (a ++ b) = well_paired b)
  /\ (forall e, well_paired (e :: a) = true ->
                well_paired ((e :: a) ++ b) = well_paired b).
Proof.
  induction a as [ | x a [IH1 IH2] ].
  - split; [ reflexivity | ]. intros e He. destruct e; try discriminate; reflexivity.
  - split; [ exact (IH2 x) | ]. intros e He.
    destruct e as [p | p | d r ok | f m].
    + destruct x as [q | q | d r ok | f m]; try discriminate.
      cbn [well_paired app] in *. apply andb_prop in He. destruct He as [Hpq Ha].
      rewrite Hpq. cbn [andb]. now apply IH1.
    + discriminate.
    + cbn [well_paired app] in *. now apply (IH2 x).
    + cbn [well_paired app] in *. now apply (IH2 x).
Qed.

Lemma well_paired_app (a b : list plot_event) :
  well_paired a = true -> well_paired b = true -> well_paired (a ++ b) = true.
Proof.
  intros Ha Hb. destruct (well_paired_app_both a b) as [H _].
  now rewrite H.
Qed.

Lemma closing_events_paired (c : PLOT_CONTROLLER) :
  well_paired (closing_events c) = true.
Proof.
  unfold closing_events. destruct (m_plotter c) as [p | ]; [ | reflexivity ].
  cbn. now rewrite PLOTTER_eqb_refl.
Qed.

Lemma step_paired (s t : session) :
  controller_step s t -> well_paired (snd s) = true -> well_paired (snd t) = true.
Proof.
  intros Hstep.
  destruct Hstep as [ensure start extension toLayer dirName fileName [c trace]
                       aSuffix aFormat aSheetDesc
                    | [c trace] | plot toLayer [c trace] | setMode [c trace] b ];
    cbn [fst snd]; intros Hs.
  - rewrite OpenPlotfile_shape. cbn [fst snd].
    apply well_paired_app; [ exact Hs | ].
    apply well_paired_app; [ apply closing_events_paired | ].
    destruct (fst (ensure _ _)); reflexivity.
  - rewrite ClosePlot_trace.
    apply well_paired_app; [ exact Hs | apply closing_events_paired ].
  - unfold PlotLayer. destruct (m_plotter c); exact Hs.
  - unfold SetColorMode. destruct (m_plotter c); exact Hs.
Qed.

Lemma run_paired (s t : session) :
  controller_run s t -> well_paired (snd s) = true -> well_paired (snd t) = true.
Proof.
  induction 1 as [ s | s t u _ IH Hstep ]; intros Hs; [ exact Hs | ].
  apply (step_paired t u Hstep). now apply IH.
Qed.

(** X19.  Whatever is called on a new controller, a plotter is deleted only
    right after its [EndPlot], and every [EndPlot] is followed at once by
    the deletion of that plotter. *)
Theorem PLOT_CONTROLLER_end_then_delete (UNDEFINED_LAYER : LAYER_NUM)
  (default_options : PCB_PLOT_PARAMS) (aBoard : BOARD) (s : session) :
  controller_run (PLOT_CONTROLLER_new UNDEFINED_LAYER default_options aBoard, []) s ->
  well_paired (snd s) = true
  /\ well_paired (snd (PLOT_CONTROLLER_delete s)) = true.
Proof.
  intros Hrun.
  assert (Hs : well_paired (snd s) = true)
    by (apply (run_paired _ _ Hrun); reflexivity).
  split; [ exact Hs | ].
  exact (step_paired _ _ (step_ClosePlot s) Hs).
Qed.

(** X20.  Closing twice is closing once: the second [ClosePlot] finds nothing to
    end and adds nothing to the trace. *)
Theorem ClosePlot_idempotent (s : session) : ClosePlot (ClosePlot s) = ClosePlot s.
Proof.
  destruct s as [[layer options [p | ] file board] trace]; reflexivity.
Qed.

(** X21.  On a closed controller nothing is drawn and nothing is set: after
    [ClosePlot], [PlotLayer] answers [false], [GetColorMode] answers
    [false], and both [PlotLayer] and [SetColorMode] leave controller and
    trace as they are. *)
Theorem closed_controller_inert
  (plot : BOARD -> PLOTTER -> LAYER_NUM -> PCB_PLOT_PARAMS -> PLOTTER)
  (toLayer : LAYER_NUM -> LAYER_NUM) (setMode : PLOTTER -> bool -> PLOTTER)
  (getMode : PLOTTER -> bool) (s : session) (b : bool) :
  PlotLayer plot toLayer (ClosePlot s) = (false, ClosePlot s)
  /\ SetColorMode setMode (ClosePlot s) b = ClosePlot s
  /\ GetColorMode getMode (ClosePlot s) = false.
Proof.
  pose proof (ClosePlot_closed s) as H.
  destruct (ClosePlot s) as [c trace]. cbn [fst] in H.
  unfold PlotLayer, SetColorMode, GetColorMode. rewrite H. repeat split.
Qed.

(** X22.  [PlotLayer] called right after [OpenPlotfile] answers what
    [OpenPlotfile] answered: it draws exactly when the plot was opened. *)
Theorem PlotLayer_after_OpenPlotfile
  (ensure : wxFileName -> wxString -> bool * wxFileName)
  (start : BOARD -> PCB_PLOT_PARAMS -> LAYER_NUM -> wxString -> wxString
           -> option PLOTTER)
  (extension : PlotFormat -> wxString) (toLayer : LAYER_NUM -> LAYER_NUM)
  (dirName fileName : wxString -> wxFileName)
  (plot : BOARD -> PLOTTER -> LAYER_NUM -> PCB_PLOT_PARAMS -> PLOTTER)
  (s : session) (aSuffix : wxString) (aFormat : PlotFormat) (aSheetDesc : wxString) :
  let opened :=
    OpenPlotfile ensure start extension toLayer dirName fileName
      s aSuffix aFormat aSheetDesc in
  fst (PlotLayer plot toLayer (snd opened)) = fst opened.
Proof.
  destruct s as [c trace]. cbv zeta. rewrite OpenPlotfile_shape.
  cbn [fst snd]. unfold PlotLayer. cbn [m_plotter].
  destruct (fst (ensure _ _)); [ destruct (start _ _ _ _ _) | ]; reflexivity.
Qed.

(** X23.  [OpenPlotfile] stores the format it is given, also when it fails, and
    changes nothing else of the plot options, nor the board, nor the
    layer. *)
Theorem OpenPlotfile_keeps
  (ensure : wxFileName -> wxString -> bool * wxFileName)
  (start : BOARD -> PCB_PLOT_PARAMS -> LAYER_NUM -> wxString -> wxString
           -> option PLOTTER)
  (extension : PlotFormat -> wxString) (toLayer : LAYER_NUM -> LAYER_NUM)
  (dirName fileName : wxString -> wxFileName)
  (c : PLOT_CONTROLLER) (trace : list plot_event)
  (aSuffix : wxString) (aFormat : PlotFormat) (aSheetDesc : wxString) :
  let c' :=
    fst (snd (OpenPlotfile ensure start extension toLayer dirName fileName
                (c, trace) aSuffix aFormat aSheetDesc)) in
  m_format (m_plotOptions c') = aFormat
  /\ m_outputDirectory (m_plotOptions c') = m_outputDirectory (m_plotOptions c)
  /\ m_useGerberProtelExtensions (m_plotOptions c')
     = m_useGerberProtelExtensions (m_plotOptions c)
  /\ m_useAuxOrigin (m_plotOptions c') = m_useAuxOrigin (m_plotOptions c)
  /\ m_board c' = m_board c
  /\ m_plotLayer c' = m_plotLayer c.
Proof.
  cbv zeta. rewrite OpenPlotfile_shape. cbn [fst snd]. repeat split.
Qed.

(** X24.  The file [OpenPlotfile] plots to.  When the directory is there, the
    file is built from the board's file name in the directory the helper
    settled on, with the sanitised suffix, and with the layer's Protel
    extension exactly when the format asked for is Gerber and the Protel
    option is on, the format's default extension otherwise; the format
    stored before the call has no say.  That file's full path is the one
    the plotter is started on.  When the directory step fails the plot
    file is left as it was. *)
Theorem OpenPlotfile_file
  (ensure : wxFileName -> wxString -> bool * wxFileName)
  (start : BOARD -> PCB_PLOT_PARAMS -> LAYER_NUM -> wxString -> wxString
           -> option PLOTTER)
  (extension : PlotFormat -> wxString) (toLayer : LAYER_NUM -> LAYER_NUM)
  (dirName fileName : wxString -> wxFileName)
  (c : PLOT_CONTROLLER) (trace : list plot_event)
  (aSuffix : wxString) (aFormat : PlotFormat) (aSheetDesc : wxString) :
  let result :=
    OpenPlotfile ensure start extension toLayer dirName fileName
      (c, trace) aSuffix aFormat aSheetDesc in
  let c' := fst (snd result) in
  let ensured :=
    ensure (dirName (m_outputDirectory (m_plotOptions c)))
      (GetFileName (m_board c)) in
  let path := GetPath (snd ensured) in
  let ext :=
    if PlotFormat_eqb aFormat PLOT_FORMAT_GERBER
       && m_useGerberProtelExtensions (m_plotOptions c)
    then GetGerberProtelExtension (m_plotLayer c)
    else extension aFormat in
  let file :=
    BuildPlotFileName (SetPath (fileName (GetFileName (m_board c))) path)
      path aSuffix ext in
  (fst ensured = true ->
   m_plotFile c' = file
   /\ exists made,
        snd (snd result)
        = trace ++ closing_events c
          ++ [ EnsureDirectory (dirName (m_outputDirectory (m_plotOptions c)))
                 (GetFileName (m_board c)) true;
               StartPlot (GetFullPath file) made ])
  /\ (fst ensured = false -> m_plotFile c' = m_plotFile c).
Proof.
  cbv zeta. rewrite OpenPlotfile_shape. cbn [fst snd m_plotFile].
  split; intros Hok; rewrite Hok; [ | reflexivity ].
  split; [ reflexivity | ]. eexists. reflexivity.
Qed.

End ControllerCalls.

(** ** The further properties on sample data *)

(** The technical extensions on KiCad's numbering; 45 is the margin layer,
    which the function does not name. *)
Lemma GetGerberProtelExtension_technical_witness :
  @layer_ids_ok kicad_layer_ids = true
  /\ map (@GetGerberProtelExtension kicad_layer_ids) [32; 33; 34; 35; 36; 37; 38; 39; 44]
     = map wxT [ "gba"; "gta"; "gbp"; "gtp"; "gbo"; "gto"; "gbs"; "gts"; "gm1" ]%string
  /\ @GetGerberProtelExtension kicad_layer_ids 45 = wxT "gbr".
Proof.
  destruct (@GetGerberProtelExtension_technical kicad_layer_ids eq_refl)
    as [Hnamed Hother].
  split; [ reflexivity | split; [ exact Hnamed | ] ].
  apply (Hother 45); [ reflexivity | ].
  cbn. intuition discriminate.
Defined.

(** A name and the same name with a first character 256 code points higher
    get the same GUID. *)
Lemma makeProjectGUIDfromString_collide_witness :
  makeProjectGUIDfromString (wxT "board")
  = makeProjectGUIDfromString ((ch "b" + 256) :: wxT "oard").
Proof.
  apply (proj2 (makeProjectGUIDfromString_collide (wxT "board")
                  ((ch "b" + 256) :: wxT "oard"))).
  reflexivity.
Defined.

(** The header with an offset of three characters, in both modes. *)
Lemma AddGerberX2Header_short_offset_witness :
  nth_error
    (emitted sample_plotter
       (AddGerberX2Header (wxT "5.0.0") (sample_date "+02") sample_wxFileName
          sample_plotter (sample_board [] false {| x := 0; y := 0 |}) false)) 1
  = Some (wxT "%TF.GenerationSoftware,KiCad,Pcbnew,5.0.0*%")
  /\ nth_error
       (emitted sample_plotter
          (AddGerberX2Header (wxT "5.0.0") (sample_date "+02") sample_wxFileName
             sample_plotter (sample_board [] false {| x := 0; y := 0 |}) true)) 1
     = Some (wxT "G04 #@! G04 #@! TF.GenerationSoftware,KiCad,Pcbnew,5.0.0*").
Proof.
  split.
  - apply (AddGerberX2Header_short_offset (wxT "5.0.0") (sample_date "+02")
             sample_wxFileName sample_plotter
             (sample_board [] false {| x := 0; y := 0 |}) false).
    cbn. lia.
  - apply (AddGerberX2Header_short_offset (wxT "5.0.0") (sample_date "+02")
             sample_wxFileName sample_plotter
             (sample_board [] false {| x := 0; y := 0 |}) true).
    cbn. lia.
Defined.

(** The lines of the front silkscreen (37) and of the margin layer (45). *)
Lemma AddGerberX2Attribute_lines_witness :
  let run l :=
    emitted sample_plotter
      (@AddGerberX2Attribute kicad_layer_ids (wxT "5.0.0") (sample_date "+0200")
         sample_wxFileName sample_plotter
         (sample_board [] false {| x := 0; y := 0 |}) l false) in
  skipn 4 (run 37) = [wxT "%TF.FileFunction,Legend,Top*%"; Positive]
  /\ skipn 4 (run 45) = [wxT "%TF.FileFunction,Other,User*%"].
Proof.
  cbv zeta. split.
  - rewrite (@AddGerberX2Attribute_lines kicad_layer_ids (wxT "5.0.0")
               (sample_date "+0200") sample_wxFileName sample_plotter
               (sample_board [] false {| x := 0; y := 0 |}) 37 false eq_refl).
    reflexivity.
  - rewrite (@AddGerberX2Attribute_lines kicad_layer_ids (wxT "5.0.0")
               (sample_date "+0200") sample_wxFileName sample_plotter
               (sample_board [] false {| x := 0; y := 0 |}) 45 false eq_refl).
    reflexivity.
Defined.

(** A layer name with a dot is a clean suffix. *)
Lemma BuildPlotFileName_clean_suffix_witness :
  GetFullPath
    (BuildPlotFileName (base_name (wxT "board")) (wxT "/out") (wxT "F.Cu")
       (wxT "gbr"))
  = wxT "/out/board-F.Cu.gbr".
Proof.
  rewrite (BuildPlotFileName_clean_suffix (base_name (wxT "board")) (wxT "/out")
             (wxT "F.Cu") (wxT "gbr"));
    [ reflexivity | discriminate | reflexivity | reflexivity | reflexivity ].
Defined.

(** A suffix of a space, a tab and a space. *)
Lemma BuildPlotFileName_blank_suffix_witness :
  GetFullPath
    (BuildPlotFileName (base_name (wxT "board")) (wxT "/out") [32; 9; 32]
       (wxT "gbr"))
  = wxT "/out/board.gbr".
Proof.
  rewrite (BuildPlotFileName_blank_suffix (base_name (wxT "board")) (wxT "/out")
             [32; 9; 32] (wxT "gbr")); [ reflexivity | ].
  repeat constructor.
Defined.

Lemma sample_run : @controller_run kicad_layer_ids sample_new sample_reopened.
Proof.
  eapply run_step; [ eapply run_step; [ eapply run_step; [ apply run_done | ] | ] | ].
  - apply (@step_OpenPlotfile kicad_layer_ids (sample_ensure true)
             (sample_start (Some fresh_plotter)) (fun _ => wxT "gbr") (fun l => l)
             sample_DirName sample_wxFileName sample_new (wxT "F.Cu")
             PLOT_FORMAT_GERBER []).
  - apply (@step_PlotLayer kicad_layer_ids
             (fun _ p _ _ => AddLineToHeader p (wxT "G04 layer*")) (fun l => l)
             sample_opened).
  - apply (@step_OpenPlotfile kicad_layer_ids (sample_ensure false)
             (sample_start (Some fresh_plotter)) (fun _ => wxT "gbr") (fun l => l)
             sample_DirName sample_wxFileName sample_drawn (wxT "B.Cu")
             PLOT_FORMAT_GERBER []).
Defined.

(** The sample life: one plotter made, one deleted, none held. *)
Lemma PLOT_CONTROLLER_no_leak_witness :
  made_count (snd sample_reopened)
  = (deleted_count (snd sample_reopened) + held_count (fst sample_reopened))%nat
  /\ made_count (snd (PLOT_CONTROLLER_delete sample_reopened))
     = deleted_count (snd (PLOT_CONTROLLER_delete sample_reopened))
  /\ m_plotter (fst (PLOT_CONTROLLER_delete sample_reopened)) = None.
Proof.
  exact (@PLOT_CONTROLLER_no_leak kicad_layer_ids (-1) (sample_options false)
           (sample_board [] false {| x := 0; y := 0 |}) sample_reopened sample_run).
Defined.

Lemma PLOT_CONTROLLER_end_then_delete_witness :
  well_paired (snd sample_reopened) = true
  /\ well_paired (snd (PLOT_CONTROLLER_delete sample_reopened)) = true.
Proof.
  exact (@PLOT_CONTROLLER_end_then_delete kicad_layer_ids (-1) (sample_options false)
           (sample_board [] false {| x := 0; y := 0 |}) sample_reopened sample_run).
Defined.

(** The file of a Gerber plot of the front copper layer with Protel
    extensions, and of a plot whose directory cannot be made. *)
Lemma OpenPlotfile_file_witness :
  let open ok :=
    @OpenPlotfile kicad_layer_ids (sample_ensure ok)
      (sample_start (Some fresh_plotter)) (fun _ => wxT "gbr") (fun l => l)
      sample_DirName sample_wxFileName (sample_controller None, [])
      (wxT " F.Cu ") PLOT_FORMAT_GERBER [] in
  GetFullPath (m_plotFile (fst (snd (open true)))) = wxT "/out/board-F.Cu.gtl"
  /\ m_plotFile (fst (snd (open false))) = m_plotFile (sample_controller None).
Proof.
  pose proof (fun ok =>
    @OpenPlotfile_file kicad_layer_ids (sample_ensure ok)
      (sample_start (Some fresh_plotter)) (fun _ => wxT "gbr") (fun l => l)
      sample_DirName sample_wxFileName (sample_controller None) [] (wxT " F.Cu ")
      PLOT_FORMAT_GERBER []) as T.
  cbv zeta in *. split.
  - destruct (T true) as [Hok _]. destruct (Hok eq_refl) as [Hfile _].
    rewrite Hfile. reflexivity.
  - destruct (T false) as [_ Hfail]. apply Hfail. reflexivity.
Defined.
